(** * Car tuning recommendation engine: a shallow embedding and its properties

    The development follows [src/models.py], [src/knowledge_base.py] and
    [src/recommendation_engine.py].

    Numbers.  Python's [float] is IEEE 754 binary64, and so is Rocq's
    primitive [float]: scores, costs and budgets are primitive floats, and
    the products and comparisons below are the ones the interpreter
    performs.  The catalogue writes its costs and the budget tiers as
    integer literals; all of them are far below 2^53, so reading them as
    floats changes neither a sum nor a comparison.

    Strings.  [str] values are [string]; the two operations the engine
    applies to them are the substring test [in] and the ordering [>].

    Errors.  The only operation of the engine that can raise is a dict
    subscript [d[k]] ([KeyError]); it is modelled in the [result] monad.
    [d.get(k, default)] cannot raise.  The models of [models.py] check
    their field constraints when they are constructed, not when a field is
    assigned; the engine constructs recommendations from catalogue entries
    only, whose scores lie between 0 and 10, so no constructor raises. *)

From Stdlib Require Import String Ascii List Bool Arith Lia.
From Stdlib Require Import Sorted Permutation.
From Stdlib Require Import Floats.
Import ListNotations.

Set Warnings "-inexact-float".
Local Open Scope string_scope.
Local Open Scope list_scope.

(** ** [models.py] *)

Inductive EngineType := PETROL | DIESEL | HYBRID | ELECTRIC.
Inductive ExperienceLevel := BEGINNER | INTERMEDIATE | ADVANCED.
Inductive DrivingGoal :=
  PERFORMANCE | FUEL_ECONOMY | DAILY_COMFORT | TRACK_USE | OFF_ROADING.
Inductive BudgetRange := BUDGET | MODERATE | PREMIUM | UNLIMITED.
Inductive TuningCategory :=
  | ECU_REMAPPING | EXHAUST_SYSTEM | SUSPENSION | AIR_INTAKE
  | TIRES_WHEELS | BRAKE_SYSTEM | COSMETIC.
Inductive SafetyLevel := LOW | MEDIUM | HIGH.

(** The enumerations mix in [str]: [.value] is the declared string. *)
Definition SafetyLevel_value (s : SafetyLevel) : string :=
  match s with LOW => "low" | MEDIUM => "medium" | HIGH => "high" end.

Definition TuningCategory_value (c : TuningCategory) : string :=
  match c with
  | ECU_REMAPPING => "ecu_remapping"
  | EXHAUST_SYSTEM => "exhaust_system"
  | SUSPENSION => "suspension"
  | AIR_INTAKE => "air_intake"
  | TIRES_WHEELS => "tires_wheels"
  | BRAKE_SYSTEM => "brake_system"
  | COSMETIC => "cosmetic"
  end.

Definition EngineType_eqb (a b : EngineType) : bool :=
  match a, b with
  | PETROL, PETROL | DIESEL, DIESEL | HYBRID, HYBRID | ELECTRIC, ELECTRIC => true
  | _, _ => false
  end.

Definition ExperienceLevel_eqb (a b : ExperienceLevel) : bool :=
  match a, b with
  | BEGINNER, BEGINNER | INTERMEDIATE, INTERMEDIATE | ADVANCED, ADVANCED => true
  | _, _ => false
  end.

Definition DrivingGoal_eqb (a b : DrivingGoal) : bool :=
  match a, b with
  | PERFORMANCE, PERFORMANCE | FUEL_ECONOMY, FUEL_ECONOMY
  | DAILY_COMFORT, DAILY_COMFORT | TRACK_USE, TRACK_USE
  | OFF_ROADING, OFF_ROADING => true
  | _, _ => false
  end.

Definition BudgetRange_eqb (a b : BudgetRange) : bool :=
  match a, b with
  | BUDGET, BUDGET | MODERATE, MODERATE | PREMIUM, PREMIUM
  | UNLIMITED, UNLIMITED => true
  | _, _ => false
  end.

Definition TuningCategory_eqb (a b : TuningCategory) : bool :=
  match a, b with
  | ECU_REMAPPING, ECU_REMAPPING | EXHAUST_SYSTEM, EXHAUST_SYSTEM
  | SUSPENSION, SUSPENSION | AIR_INTAKE, AIR_INTAKE
  | TIRES_WHEELS, TIRES_WHEELS | BRAKE_SYSTEM, BRAKE_SYSTEM
  | COSMETIC, COSMETIC => true
  | _, _ => false
  end.

Definition SafetyLevel_eqb (a b : SafetyLevel) : bool :=
  match a, b with
  | LOW, LOW | MEDIUM, MEDIUM | HIGH, HIGH => true
  | _, _ => false
  end.

Record CarInfo := {
  make : string;
  model : string;
  year : nat;
  engine_type : EngineType;
  current_modifications : list string
}.

Record UserPreferences := {
  primary_goals : list DrivingGoal;
  budget_range : BudgetRange;
  experience_level : ExperienceLevel;
  max_budget : option float
}.

(** The [{"min": .., "max": ..}] dictionaries of costs and budget tiers. *)
Record CostRange := { cost_min : float; cost_max : float }.

Record TuningRecommendation := {
  category : TuningCategory;
  name : string;
  description : string;
  benefits : list string;
  cost_range : CostRange;
  compatibility_notes : list string;
  prerequisites : list string;
  safety_warnings : list string;
  legal_considerations : list string;
  warranty_impact : string;
  emissions_impact : string;
  insurance_impact : string;
  priority_score : float;
  safety_level : SafetyLevel;
  installation_difficulty : string;
  professional_required : bool
}.

(** [recommendation.priority_score = adjusted_score] *)
Definition set_priority_score (r : TuningRecommendation) (s : float)
  : TuningRecommendation :=
  {| category := category r; name := name r; description := description r;
     benefits := benefits r; cost_range := cost_range r;
     compatibility_notes := compatibility_notes r;
     prerequisites := prerequisites r;
     safety_warnings := safety_warnings r;
     legal_considerations := legal_considerations r;
     warranty_impact := warranty_impact r;
     emissions_impact := emissions_impact r;
     insurance_impact := insurance_impact r;
     priority_score := s;
     safety_level := safety_level r;
     installation_difficulty := installation_difficulty r;
     professional_required := professional_required r |}.

Record TotalCost := { total_min : float; total_max : float; currency : string }.

Record SafetySummary := {
  high_risk : list string;
  medium_risk : list string;
  low_risk : list string
}.

Record LegalSummary := {
  warranty_impacts : list string;
  emissions_impacts : list string;
  insurance_impacts : list string;
  legal_considerations_all : list string
}.

(** ** Dictionaries and errors *)

(** A dict literal, in source order. *)
Definition dict (K V : Type) := list (K * V).

Inductive result (A : Type) :=
  | Ok (a : A)
  | KeyError.
Arguments Ok {A} a.
Arguments KeyError {A}.

Definition bind {A B} (m : result A) (f : A -> result B) : result B :=
  match m with Ok a => f a | KeyError => KeyError end.

Notation "x <- m ;; k" := (bind m (fun x => k))
  (at level 61, m at next level, right associativity).

Section Dict.
Context {K V : Type} (eqb : K -> K -> bool).

(** [d.get(k)] *)
Fixpoint dict_find (d : dict K V) (k : K) : option V :=
  match d with
  | [] => None
  | (k', v) :: d' => if eqb k k' then Some v else dict_find d' k
  end.

(** [d[k]] *)
Definition subscript (d : dict K V) (k : K) : result V :=
  match dict_find d k with Some v => Ok v | None => KeyError end.

(** [d.get(k, default)] *)
Definition get (d : dict K V) (k : K) (default : V) : V :=
  match dict_find d k with Some v => v | None => default end.

(** [d[k] = v] : overwrite in place, or append a new key. *)
Fixpoint setitem (d : dict K V) (k : K) (v : V) : dict K V :=
  match d with
  | [] => [(k, v)]
  | (k', v') :: d' =>
      if eqb k k' then (k', v) :: d' else (k', v') :: setitem d' k v
  end.
End Dict.

Record TuningReport := {
  car_info : CarInfo;
  user_preferences : UserPreferences;
  recommendations : list TuningRecommendation;
  total_estimated_cost : TotalCost;
  compatibility_matrix : dict string (list string);
  safety_summary : SafetySummary;
  legal_summary : LegalSummary;
  disclaimer : string;
  generated_at : string
}.

(** ** [knowledge_base.py] *)

(** One entry of the catalogue: a dict with these sixteen string keys,
    the category being the key it is filed under. *)
Record TuningOption := {
  o_name : string;
  o_description : string;
  o_benefits : list string;
  o_cost_range : CostRange;
  o_compatibility_notes : list string;
  o_prerequisites : list string;
  o_safety_warnings : list string;
  o_legal_considerations : list string;
  o_warranty_impact : string;
  o_emissions_impact : string;
  o_insurance_impact : string;
  o_priority_score : float;
  o_safety_level : SafetyLevel;
  o_installation_difficulty : string;
  o_professional_required : bool
}.

Definition Stage_1_ECU_Remap : TuningOption :=
  {| o_name := "Stage 1 ECU Remap";
     o_description := "Optimizes fuel injection, ignition timing, and boost pressure for improved performance";
     o_benefits := ["10-20% power increase"; "Better throttle response"; "Improved fuel efficiency"];
     o_cost_range := {| cost_min := 300; cost_max := 800 |};
     o_compatibility_notes := ["Compatible with most modern petrol and diesel engines"; "Requires OBD-II port"];
     o_prerequisites := ["Stock engine in good condition"; "No existing ECU modifications"];
     o_safety_warnings := ["May void warranty"; "Ensure professional installation"];
     o_legal_considerations := ["Check local emissions laws"; "May affect insurance"];
     o_warranty_impact := "Likely to void powertrain warranty";
     o_emissions_impact := "May affect emissions compliance";
     o_insurance_impact := "May require insurance notification";
     o_priority_score := 9;
     o_safety_level := MEDIUM;
     o_installation_difficulty := "Professional installation required";
     o_professional_required := true |}.

Definition Stage_2_ECU_Remap : TuningOption :=
  {| o_name := "Stage 2 ECU Remap";
     o_description := "Advanced ECU tuning for modified engines with supporting hardware";
     o_benefits := ["20-35% power increase"; "Enhanced torque delivery"; "Customizable power curves"];
     o_cost_range := {| cost_min := 500; cost_max := 1200 |};
     o_compatibility_notes := ["Requires supporting modifications"; "Not suitable for stock engines"];
     o_prerequisites := ["Stage 1 remap"; "Upgraded air intake"; "Performance exhaust"];
     o_safety_warnings := ["High risk of engine damage if not properly tuned"; "Requires supporting hardware"];
     o_legal_considerations := ["Likely illegal for road use"; "Track use only"];
     o_warranty_impact := "Will void warranty";
     o_emissions_impact := "Will fail emissions testing";
     o_insurance_impact := "Will affect insurance coverage";
     o_priority_score := 8.5;
     o_safety_level := HIGH;
     o_installation_difficulty := "Professional installation required";
     o_professional_required := true |}.

Definition Performance_Exhaust_System : TuningOption :=
  {| o_name := "Performance Exhaust System";
     o_description := "Replaces stock exhaust with high-flow system for better performance and sound";
     o_benefits := ["5-15% power increase"; "Improved exhaust flow"; "Enhanced engine sound"];
     o_cost_range := {| cost_min := 400; cost_max := 2000 |};
     o_compatibility_notes := ["Compatible with most vehicles"; "Check local noise regulations"];
     o_prerequisites := ["Stock exhaust system"];
     o_safety_warnings := ["Ensure proper fitment"; "Check for leaks after installation"];
     o_legal_considerations := ["Check local noise regulations"; "May require emissions testing"];
     o_warranty_impact := "May affect exhaust warranty";
     o_emissions_impact := "May affect emissions compliance";
     o_insurance_impact := "Minimal impact";
     o_priority_score := 7.5;
     o_safety_level := LOW;
     o_installation_difficulty := "Moderate - professional recommended";
     o_professional_required := false |}.

Definition Cat_Back_Exhaust_System : TuningOption :=
  {| o_name := "Cat-Back Exhaust System";
     o_description := "Replaces exhaust from catalytic converter back for improved flow";
     o_benefits := ["3-8% power increase"; "Better exhaust flow"; "Sportier sound"];
     o_cost_range := {| cost_min := 300; cost_max := 1500 |};
     o_compatibility_notes := ["Maintains catalytic converter"; "Generally street legal"];
     o_prerequisites := ["Stock exhaust system"];
     o_safety_warnings := ["Ensure proper fitment"; "Check for leaks"];
     o_legal_considerations := ["Generally street legal"; "Check local regulations"];
     o_warranty_impact := "Minimal impact";
     o_emissions_impact := "Minimal impact";
     o_insurance_impact := "Minimal impact";
     o_priority_score := 7;
     o_safety_level := LOW;
     o_installation_difficulty := "Moderate";
     o_professional_required := false |}.

Definition Cold_Air_Intake_System : TuningOption :=
  {| o_name := "Cold Air Intake System";
     o_description := "Replaces stock air filter with high-flow system for better air delivery";
     o_benefits := ["3-8% power increase"; "Improved throttle response"; "Better engine breathing"];
     o_cost_range := {| cost_min := 150; cost_max := 500 |};
     o_compatibility_notes := ["Compatible with most vehicles"; "Check engine bay space"];
     o_prerequisites := ["Stock air intake system"];
     o_safety_warnings := ["Ensure proper fitment"; "Check for air leaks"];
     o_legal_considerations := ["Generally street legal"; "May require CARB approval"];
     o_warranty_impact := "Minimal impact";
     o_emissions_impact := "Minimal impact";
     o_insurance_impact := "Minimal impact";
     o_priority_score := 6.5;
     o_safety_level := LOW;
     o_installation_difficulty := "Easy to moderate";
     o_professional_required := false |}.

Definition Performance_Air_Filter : TuningOption :=
  {| o_name := "Performance Air Filter";
     o_description := "High-flow air filter for improved air flow";
     o_benefits := ["1-3% power increase"; "Better air flow"; "Reusable"];
     o_cost_range := {| cost_min := 50; cost_max := 200 |};
     o_compatibility_notes := ["Compatible with most vehicles"; "Check filter size"];
     o_prerequisites := ["Stock air filter"];
     o_safety_warnings := ["Ensure proper fitment"; "Regular cleaning required"];
     o_legal_considerations := ["Generally street legal"];
     o_warranty_impact := "Minimal impact";
     o_emissions_impact := "No impact";
     o_insurance_impact := "No impact";
     o_priority_score := 5;
     o_safety_level := LOW;
     o_installation_difficulty := "Easy";
     o_professional_required := false |}.

Definition Lowering_Springs : TuningOption :=
  {| o_name := "Lowering Springs";
     o_description := "Lower ride height and improve handling with stiffer springs";
     o_benefits := ["Improved handling"; "Lower center of gravity"; "Sportier appearance"];
     o_cost_range := {| cost_min := 200; cost_max := 800 |};
     o_compatibility_notes := ["Check spring rates for your vehicle"; "May require shock upgrades"];
     o_prerequisites := ["Stock suspension"];
     o_safety_warnings := ["May affect ride quality"; "Check ground clearance"];
     o_legal_considerations := ["Check local height restrictions"; "May affect safety inspections"];
     o_warranty_impact := "May affect suspension warranty";
     o_emissions_impact := "No impact";
     o_insurance_impact := "Minimal impact";
     o_priority_score := 6;
     o_safety_level := MEDIUM;
     o_installation_difficulty := "Moderate - professional recommended";
     o_professional_required := false |}.

Definition Coilover_Suspension : TuningOption :=
  {| o_name := "Coilover Suspension";
     o_description := "Adjustable suspension system for maximum handling and ride height control";
     o_benefits := ["Fully adjustable ride height"; "Improved handling"; "Customizable damping"];
     o_cost_range := {| cost_min := 800; cost_max := 3000 |};
     o_compatibility_notes := ["Check vehicle compatibility"; "Professional setup recommended"];
     o_prerequisites := ["Stock suspension"];
     o_safety_warnings := ["Professional installation required"; "Proper setup critical"];
     o_legal_considerations := ["Check local height restrictions"; "May require certification"];
     o_warranty_impact := "Will affect suspension warranty";
     o_emissions_impact := "No impact";
     o_insurance_impact := "May affect insurance";
     o_priority_score := 7.5;
     o_safety_level := MEDIUM;
     o_installation_difficulty := "Professional installation required";
     o_professional_required := true |}.

Definition Performance_Tires : TuningOption :=
  {| o_name := "Performance Tires";
     o_description := "High-performance tires for improved grip and handling";
     o_benefits := ["Better grip"; "Improved handling"; "Shorter braking distances"];
     o_cost_range := {| cost_min := 400; cost_max := 1200 |};
     o_compatibility_notes := ["Check tire size compatibility"; "Consider wheel size"];
     o_prerequisites := ["Compatible wheels"];
     o_safety_warnings := ["Shorter tread life"; "May affect ride quality"];
     o_legal_considerations := ["Must meet DOT standards"; "Check local regulations"];
     o_warranty_impact := "No impact";
     o_emissions_impact := "No impact";
     o_insurance_impact := "No impact";
     o_priority_score := 8;
     o_safety_level := LOW;
     o_installation_difficulty := "Professional installation recommended";
     o_professional_required := false |}.

Definition Lightweight_Wheels : TuningOption :=
  {| o_name := "Lightweight Wheels";
     o_description := "Lightweight alloy wheels for reduced unsprung weight";
     o_benefits := ["Reduced unsprung weight"; "Improved handling"; "Better acceleration"];
     o_cost_range := {| cost_min := 600; cost_max := 2000 |};
     o_compatibility_notes := ["Check bolt pattern and offset"; "Consider tire compatibility"];
     o_prerequisites := ["Compatible bolt pattern"];
     o_safety_warnings := ["Ensure proper fitment"; "Check load rating"];
     o_legal_considerations := ["Must meet safety standards"; "Check local regulations"];
     o_warranty_impact := "No impact";
     o_emissions_impact := "No impact";
     o_insurance_impact := "No impact";
     o_priority_score := 6.5;
     o_safety_level := LOW;
     o_installation_difficulty := "Professional installation recommended";
     o_professional_required := false |}.

Definition Performance_Brake_Pads : TuningOption :=
  {| o_name := "Performance Brake Pads";
     o_description := "High-performance brake pads for improved stopping power";
     o_benefits := ["Better stopping power"; "Improved fade resistance"; "Better pedal feel"];
     o_cost_range := {| cost_min := 100; cost_max := 400 |};
     o_compatibility_notes := ["Check pad compatibility"; "May require rotor upgrade"];
     o_prerequisites := ["Stock brake system"];
     o_safety_warnings := ["May produce more dust"; "Bed-in procedure required"];
     o_legal_considerations := ["Must meet safety standards"];
     o_warranty_impact := "May affect brake warranty";
     o_emissions_impact := "No impact";
     o_insurance_impact := "No impact";
     o_priority_score := 7;
     o_safety_level := MEDIUM;
     o_installation_difficulty := "Moderate - professional recommended";
     o_professional_required := false |}.

Definition Big_Brake_Kit : TuningOption :=
  {| o_name := "Big Brake Kit";
     o_description := "Larger brake rotors and calipers for maximum stopping power";
     o_benefits := ["Maximum stopping power"; "Better heat dissipation"; "Improved fade resistance"];
     o_cost_range := {| cost_min := 1500; cost_max := 5000 |};
     o_compatibility_notes := ["Check wheel clearance"; "May require wheel upgrade"];
     o_prerequisites := ["Compatible wheels"; "Sufficient wheel clearance"];
     o_safety_warnings := ["Professional installation required"; "Proper bleeding critical"];
     o_legal_considerations := ["Must meet safety standards"; "May require certification"];
     o_warranty_impact := "Will affect brake warranty";
     o_emissions_impact := "No impact";
     o_insurance_impact := "May affect insurance";
     o_priority_score := 8.5;
     o_safety_level := HIGH;
     o_installation_difficulty := "Professional installation required";
     o_professional_required := true |}.

Definition Body_Kit : TuningOption :=
  {| o_name := "Body Kit";
     o_description := "Aesthetic modifications for improved appearance";
     o_benefits := ["Improved appearance"; "Better aerodynamics"; "Personalization"];
     o_cost_range := {| cost_min := 500; cost_max := 3000 |};
     o_compatibility_notes := ["Check fitment"; "May require paint matching"];
     o_prerequisites := ["Stock body panels"];
     o_safety_warnings := ["Ensure proper fitment"; "Check for sharp edges"];
     o_legal_considerations := ["Check local regulations"; "May require certification"];
     o_warranty_impact := "No impact on mechanical warranty";
     o_emissions_impact := "No impact";
     o_insurance_impact := "May affect insurance";
     o_priority_score := 3;
     o_safety_level := LOW;
     o_installation_difficulty := "Moderate - professional recommended";
     o_professional_required := false |}.

Definition tuning_options : dict TuningCategory (list TuningOption) :=
  [ (ECU_REMAPPING, [Stage_1_ECU_Remap; Stage_2_ECU_Remap]);
    (EXHAUST_SYSTEM, [Performance_Exhaust_System; Cat_Back_Exhaust_System]);
    (AIR_INTAKE, [Cold_Air_Intake_System; Performance_Air_Filter]);
    (SUSPENSION, [Lowering_Springs; Coilover_Suspension]);
    (TIRES_WHEELS, [Performance_Tires; Lightweight_Wheels]);
    (BRAKE_SYSTEM, [Performance_Brake_Pads; Big_Brake_Kit]);
    (COSMETIC, [Body_Kit]) ].

Definition kb_compatibility_matrix : dict string (list string) :=
  [ ("ecu_remapping", ["air_intake"; "exhaust_system"]);
    ("exhaust_system", ["ecu_remapping"; "air_intake"]);
    ("air_intake", ["ecu_remapping"; "exhaust_system"]);
    ("suspension", ["tires_wheels"; "brake_system"]);
    ("tires_wheels", ["suspension"; "brake_system"]);
    ("brake_system", ["suspension"; "tires_wheels"]);
    ("cosmetic", []) ].

Definition budget_ranges : dict BudgetRange CostRange :=
  [ (BUDGET, {| cost_min := 500; cost_max := 2000 |});
    (MODERATE, {| cost_min := 2000; cost_max := 8000 |});
    (PREMIUM, {| cost_min := 8000; cost_max := 20000 |});
    (UNLIMITED, {| cost_min := 20000; cost_max := 100000 |}) ].

Definition get_tuning_options_for_category (category : TuningCategory)
  : list TuningOption :=
  get TuningCategory_eqb tuning_options category [].

Definition get_compatible_modifications (modification : string) : list string :=
  get String.eqb kb_compatibility_matrix modification [].

Definition get_budget_range (budget_range : BudgetRange) : CostRange :=
  get BudgetRange_eqb budget_ranges budget_range {| cost_min := 0; cost_max := 0 |}.

(** ** Python operators used by the engine *)

(** [a > b] on [str]: lexicographic order on code points. *)
Definition str_gt (a b : string) : bool := String.ltb b a.

(** [sub in s] on [str]: [sub] occurs in [s] as a contiguous substring. *)
Fixpoint str_contains (sub s : string) : bool :=
  if String.prefix sub s then true
  else match s with
       | EmptyString => false
       | String _ s' => str_contains sub s'
       end.

(** [a > b] and [a < b] on [float]; both are false on a NaN. *)
Definition float_gt (a b : float) : bool := PrimFloat.ltb b a.

(** [min(a, b)]: [b] when [b < a], otherwise the first argument. *)
Definition py_min (a b : float) : float := if PrimFloat.ltb b a then b else a.

(** [x or y] with [x : Optional[float]]: [None] and zero are falsy. *)
Definition float_or (x : option float) (y : float) : float :=
  match x with
  | None => y
  | Some v => if PrimFloat.eqb v 0 then y else v
  end.

(** [sum(...)]: left to right from the integer 0.  The sums taken here are
    of integer-valued costs and stay exact, whichever summation the
    interpreter uses for floats. *)
Definition py_sum (l : list float) : float := fold_left PrimFloat.add l 0%float.

(** [list(set(xs))]: the distinct elements of [xs].  The iteration order of
    a Python set is unspecified; the model lists them by first occurrence. *)
Fixpoint list_of_set (xs : list string) : list string :=
  match xs with
  | [] => []
  | x :: xs' =>
      x :: filter (fun y => negb (String.eqb x y)) (list_of_set xs')
  end.

(** The guideline texts of the knowledge base are not read by the engine
    and are left out. *)

(** ** [recommendation_engine.py] *)

Definition goal_priorities : dict DrivingGoal (list TuningCategory) :=
  [ (PERFORMANCE,
      [ECU_REMAPPING; EXHAUST_SYSTEM; AIR_INTAKE; TIRES_WHEELS; BRAKE_SYSTEM;
       SUSPENSION; COSMETIC]);
    (FUEL_ECONOMY, [ECU_REMAPPING; AIR_INTAKE; TIRES_WHEELS; COSMETIC]);
    (DAILY_COMFORT, [SUSPENSION; TIRES_WHEELS; COSMETIC]);
    (TRACK_USE,
      [ECU_REMAPPING; BRAKE_SYSTEM; SUSPENSION; TIRES_WHEELS; EXHAUST_SYSTEM;
       AIR_INTAKE; COSMETIC]);
    (OFF_ROADING, [SUSPENSION; TIRES_WHEELS; BRAKE_SYSTEM; COSMETIC]) ].

Record ExperienceFilters := {
  max_safety_level : SafetyLevel;
  max_priority_score : float;
  prefer_professional_installation : bool;
  avoid_high_risk_mods : bool
}.

Definition experience_filters : dict ExperienceLevel ExperienceFilters :=
  [ (BEGINNER,
      {| max_safety_level := MEDIUM; max_priority_score := 7.0;
         prefer_professional_installation := true;
         avoid_high_risk_mods := true |});
    (INTERMEDIATE,
      {| max_safety_level := HIGH; max_priority_score := 8.5;
         prefer_professional_installation := false;
         avoid_high_risk_mods := false |});
    (ADVANCED,
      {| max_safety_level := HIGH; max_priority_score := 10.0;
         prefer_professional_installation := false;
         avoid_high_risk_mods := false |}) ].

(** The first test of [_passes_experience_filters], on its own:
    [option["safety_level"].value > filters["max_safety_level"].value]. *)
Definition safety_ceiling_rejects (level ceiling : SafetyLevel) : bool :=
  str_gt (SafetyLevel_value level) (SafetyLevel_value ceiling).

Definition _passes_experience_filters
    (option : TuningOption) (filters : ExperienceFilters) : bool :=
  if safety_ceiling_rejects (o_safety_level option) (max_safety_level filters)
  then false
  else if float_gt (o_priority_score option) (max_priority_score filters)
  then false
  else if avoid_high_risk_mods filters
          && SafetyLevel_eqb (o_safety_level option) HIGH
  then false
  else true.

Definition _is_compatible_with_engine
    (option : TuningOption) (engine_type : EngineType) : bool :=
  if str_contains "ECU" (o_name option) && EngineType_eqb engine_type ELECTRIC
  then false
  else true.

Definition _adjust_priority_score
    (recommendation : TuningRecommendation) (goal : DrivingGoal)
    (preferences : UserPreferences) : float :=
  let base_score := priority_score recommendation in
  let base_score :=
    if existsb (DrivingGoal_eqb goal) (primary_goals preferences)
    then (base_score * 1.2)%float else base_score in
  let base_score :=
    if ExperienceLevel_eqb (experience_level preferences) BEGINNER
       && SafetyLevel_eqb (safety_level recommendation) HIGH
    then (base_score * 0.7)%float else base_score in
  let base_score :=
    if BudgetRange_eqb (budget_range preferences) BUDGET
       && PrimFloat.ltb (cost_max (cost_range recommendation)) 1000
    then (base_score * 1.1)%float else base_score in
  py_min base_score 10.0.

(** [TuningRecommendation(category=category, name=option["name"], ...)] *)
Definition recommendation_of (category : TuningCategory) (option : TuningOption)
  : TuningRecommendation :=
  {| category := category;
     name := o_name option;
     description := o_description option;
     benefits := o_benefits option;
     cost_range := o_cost_range option;
     compatibility_notes := o_compatibility_notes option;
     prerequisites := o_prerequisites option;
     safety_warnings := o_safety_warnings option;
     legal_considerations := o_legal_considerations option;
     warranty_impact := o_warranty_impact option;
     emissions_impact := o_emissions_impact option;
     insurance_impact := o_insurance_impact option;
     priority_score := o_priority_score option;
     safety_level := o_safety_level option;
     installation_difficulty := o_installation_difficulty option;
     professional_required := o_professional_required option |}.

Section GoalRecommendations.
Variables (car_info : CarInfo) (user_preferences : UserPreferences)
          (goal : DrivingGoal) (max_budget : float)
          (experience_filters : ExperienceFilters).

(** The body of the inner loop: [continue] leaves the list as it is. *)
Definition option_step (category : TuningCategory)
    (recommendations : list TuningRecommendation) (option : TuningOption)
  : list TuningRecommendation :=
  if negb (_passes_experience_filters option experience_filters)
  then recommendations
  else if float_gt (cost_max (o_cost_range option)) max_budget
  then recommendations
  else if negb (_is_compatible_with_engine option (engine_type car_info))
  then recommendations
  else
    let recommendation := recommendation_of category option in
    let adjusted_score :=
      _adjust_priority_score recommendation goal user_preferences in
    recommendations ++ [set_priority_score recommendation adjusted_score].

Definition category_step
    (recommendations : list TuningRecommendation) (category : TuningCategory)
  : list TuningRecommendation :=
  fold_left (option_step category)
            (get_tuning_options_for_category category) recommendations.

Definition _generate_goal_recommendations
  : result (list TuningRecommendation) :=
  priority_categories <- subscript DrivingGoal_eqb goal_priorities goal ;;
  Ok (fold_left category_step priority_categories []).
End GoalRecommendations.

Definition rec_key (rec : TuningRecommendation) : TuningCategory * string :=
  (category rec, name rec).

Definition key_eqb (k1 k2 : TuningCategory * string) : bool :=
  TuningCategory_eqb (fst k1) (fst k2) && String.eqb (snd k1) (snd k2).

(** [key in seen], the set [seen] being kept as the list of its elements. *)
Definition set_mem (key : TuningCategory * string)
    (seen : list (TuningCategory * string)) : bool :=
  existsb (key_eqb key) seen.

Fixpoint dedup_loop (recommendations : list TuningRecommendation)
    (seen : list (TuningCategory * string))
    (unique_recommendations : list TuningRecommendation)
  : list TuningRecommendation :=
  match recommendations with
  | [] => unique_recommendations
  | rec :: rest =>
      let key := rec_key rec in
      if negb (set_mem key seen)
      then dedup_loop rest (key :: seen) (unique_recommendations ++ [rec])
      else dedup_loop rest seen unique_recommendations
  end.

Definition _deduplicate_recommendations
    (recommendations : list TuningRecommendation) : list TuningRecommendation :=
  dedup_loop recommendations [] [].

(** [sorted(xs, key=lambda x: x.priority_score, reverse=True)].  Python's
    sort is stable, also with [reverse=True], and compares keys with [<]
    only.  On keys that [<] orders totally every stable sort returns the
    same list; the model is the stable insertion sort: an element moves to
    the right past exactly the elements whose key is strictly greater. *)
Fixpoint insert_desc (x : TuningRecommendation) (l : list TuningRecommendation)
  : list TuningRecommendation :=
  match l with
  | [] => [x]
  | y :: l' =>
      if PrimFloat.ltb (priority_score x) (priority_score y)
      then y :: insert_desc x l'
      else x :: l
  end.

Definition sorted_by_priority (l : list TuningRecommendation)
  : list TuningRecommendation :=
  fold_right insert_desc [] l.

Fixpoint budget_loop (recommendations : list TuningRecommendation)
    (max_budget : float) (filtered : list TuningRecommendation)
    (total_cost : float) : list TuningRecommendation :=
  match recommendations with
  | [] => filtered
  | rec :: rest =>
      if PrimFloat.leb (total_cost + cost_max (cost_range rec)) max_budget
      then budget_loop rest max_budget (filtered ++ [rec])
                       (total_cost + cost_max (cost_range rec))
      else if PrimFloat.leb (total_cost + cost_min (cost_range rec)) max_budget
      then budget_loop rest max_budget (filtered ++ [rec])
                       (total_cost + cost_min (cost_range rec))
      else budget_loop rest max_budget filtered total_cost
  end.

Definition _filter_by_budget (recommendations : list TuningRecommendation)
    (max_budget : float) : list TuningRecommendation :=
  firstn 10 (budget_loop recommendations max_budget [] 0%float).

Definition _calculate_total_cost (recommendations : list TuningRecommendation)
  : TotalCost :=
  let min_total := py_sum (map (fun rec => cost_min (cost_range rec)) recommendations) in
  let max_total := py_sum (map (fun rec => cost_max (cost_range rec)) recommendations) in
  {| total_min := min_total; total_max := max_total; currency := "USD" |}.

Definition _generate_compatibility_matrix
    (recommendations : list TuningRecommendation) : dict string (list string) :=
  fold_left
    (fun matrix rec =>
       let category_key := TuningCategory_value (category rec) in
       let compatible_mods := get_compatible_modifications category_key in
       setitem String.eqb matrix (name rec) compatible_mods)
    recommendations [].

Definition safety_step (acc : SafetySummary) (rec : TuningRecommendation)
  : SafetySummary :=
  if SafetyLevel_eqb (safety_level rec) HIGH
  then {| high_risk := high_risk acc ++ safety_warnings rec;
          medium_risk := medium_risk acc; low_risk := low_risk acc |}
  else if SafetyLevel_eqb (safety_level rec) MEDIUM
  then {| high_risk := high_risk acc;
          medium_risk := medium_risk acc ++ safety_warnings rec;
          low_risk := low_risk acc |}
  else {| high_risk := high_risk acc; medium_risk := medium_risk acc;
          low_risk := low_risk acc ++ safety_warnings rec |}.

Definition _generate_safety_summary
    (recommendations : list TuningRecommendation) : SafetySummary :=
  let acc :=
    fold_left safety_step recommendations
      {| high_risk := []; medium_risk := []; low_risk := [] |} in
  {| high_risk := list_of_set (high_risk acc);
     medium_risk := list_of_set (medium_risk acc);
     low_risk := list_of_set (low_risk acc) |}.

(** [x != "No impact"] *)
Definition has_impact (x : string) : bool := negb (String.eqb x "No impact").

(** [f"{rec.name}: {impact}"] *)
Definition impact_line (rec : TuningRecommendation) (impact : string) : string :=
  (name rec ++ ": " ++ impact)%string.

Definition legal_step (acc : LegalSummary) (rec : TuningRecommendation)
  : LegalSummary :=
  {| warranty_impacts :=
       if has_impact (warranty_impact rec)
       then warranty_impacts acc ++ [impact_line rec (warranty_impact rec)]
       else warranty_impacts acc;
     emissions_impacts :=
       if has_impact (emissions_impact rec)
       then emissions_impacts acc ++ [impact_line rec (emissions_impact rec)]
       else emissions_impacts acc;
     insurance_impacts :=
       if has_impact (insurance_impact rec)
       then insurance_impacts acc ++ [impact_line rec (insurance_impact rec)]
       else insurance_impacts acc;
     legal_considerations_all :=
       legal_considerations_all acc ++ legal_considerations rec |}.

Definition _generate_legal_summary
    (recommendations : list TuningRecommendation) : LegalSummary :=
  let acc :=
    fold_left legal_step recommendations
      {| warranty_impacts := []; emissions_impacts := [];
         insurance_impacts := []; legal_considerations_all := [] |} in
  {| warranty_impacts := list_of_set (warranty_impacts acc);
     emissions_impacts := list_of_set (emissions_impacts acc);
     insurance_impacts := list_of_set (insurance_impacts acc);
     legal_considerations_all := list_of_set (legal_considerations_all acc) |}.

(** [_generate_disclaimer]: the fixed text, [strip()]ped. *)
Definition disclaimer_text : string :=
"IMPORTANT DISCLAIMER:

This report provides general recommendations for car modifications and should not be considered as professional automotive advice. 

SAFETY WARNINGS:
- All modifications should be performed by qualified professionals
- Modifications may affect vehicle safety and handling characteristics
- Test all modifications in safe conditions before regular use
- Some modifications may void vehicle warranty
- Performance modifications may affect emissions compliance

LEGAL CONSIDERATIONS:
- Check local laws and regulations before making modifications
- Some modifications may be illegal for road use
- Notify your insurance company of any modifications
- Ensure modifications meet local safety standards

PROFESSIONAL CONSULTATION:
- Always consult with qualified automotive professionals
- Have modifications inspected by certified technicians
- Keep original parts for potential reversion
- Regular maintenance is critical for modified vehicles

The authors are not responsible for any damage, injury, or legal issues resulting from these modifications.".

Definition _generate_disclaimer (car_info : CarInfo)
    (user_preferences : UserPreferences) : string :=
  disclaimer_text.

(** Lines 89-91 of [generate_recommendations]: the spending cap. *)
Definition resolve_max_budget (user_preferences : UserPreferences) : float :=
  let budget_range := get_budget_range (budget_range user_preferences) in
  float_or (max_budget user_preferences) (cost_max budget_range).

(** The loop over the goals: [all_recommendations.extend(...)]. *)
Fixpoint goals_loop (car_info : CarInfo) (user_preferences : UserPreferences)
    (max_budget : float) (filters : ExperienceFilters)
    (goals : list DrivingGoal) (all_recommendations : list TuningRecommendation)
  : result (list TuningRecommendation) :=
  match goals with
  | [] => Ok all_recommendations
  | goal :: rest =>
      goal_recommendations <-
        _generate_goal_recommendations car_info user_preferences goal
                                       max_budget filters ;;
      goals_loop car_info user_preferences max_budget filters rest
                 (all_recommendations ++ goal_recommendations)
  end.

(** Lines 93-102: the working list, before deduplication. *)
Definition collect_recommendations (car_info : CarInfo)
    (user_preferences : UserPreferences) : result (list TuningRecommendation) :=
  let max_budget := resolve_max_budget user_preferences in
  filters <- subscript ExperienceLevel_eqb experience_filters
                       (experience_level user_preferences) ;;
  goals_loop car_info user_preferences max_budget filters
             (primary_goals user_preferences) [].

(** Lines 104-109: deduplicate, sort, select within the budget. *)
Definition select_recommendations (all_recommendations : list TuningRecommendation)
    (max_budget : float) : list TuningRecommendation :=
  let unique_recommendations := _deduplicate_recommendations all_recommendations in
  let sorted_recommendations := sorted_by_priority unique_recommendations in
  _filter_by_budget sorted_recommendations max_budget.

(** [generate_recommendations]; [now] stands for
    [datetime.now().isoformat()], the one input read from the clock. *)
Definition generate_recommendations (car : CarInfo)
    (prefs : UserPreferences) (now : string) : result TuningReport :=
  let max_budget := resolve_max_budget prefs in
  all_recommendations <- collect_recommendations car prefs ;;
  let filtered_recommendations :=
    select_recommendations all_recommendations max_budget in
  Ok {| car_info := car;
        user_preferences := prefs;
        recommendations := filtered_recommendations;
        total_estimated_cost := _calculate_total_cost filtered_recommendations;
        compatibility_matrix :=
          _generate_compatibility_matrix filtered_recommendations;
        safety_summary := _generate_safety_summary filtered_recommendations;
        legal_summary := _generate_legal_summary filtered_recommendations;
        disclaimer := _generate_disclaimer car prefs;
        generated_at := now |}.

(** ** Reference definitions used in the statements *)

(** The three rejection tests of the inner loop, taken together. *)
Definition accepts (car_info : CarInfo) (max_budget : float)
    (filters : ExperienceFilters) (option : TuningOption) : bool :=
  _passes_experience_filters option filters
  && negb (float_gt (cost_max (o_cost_range option)) max_budget)
  && _is_compatible_with_engine option (engine_type car_info).

(** The recommendation appended for an accepted option. *)
Definition adjusted (user_preferences : UserPreferences) (goal : DrivingGoal)
    (category : TuningCategory) (option : TuningOption) : TuningRecommendation :=
  let recommendation := recommendation_of category option in
  set_priority_score recommendation
    (_adjust_priority_score recommendation goal user_preferences).

(** What the two inner loops append for one goal, and the working list
    the loop over the goals builds, as plain list expressions. *)
Definition goal_candidates (car_info : CarInfo)
    (user_preferences : UserPreferences) (max_budget : float)
    (filters : ExperienceFilters) (goal : DrivingGoal)
  : list TuningRecommendation :=
  flat_map
    (fun category =>
       map (adjusted user_preferences goal category)
           (filter (accepts car_info max_budget filters)
                   (get_tuning_options_for_category category)))
    (get DrivingGoal_eqb goal_priorities goal []).

Definition working_list (car_info : CarInfo)
    (user_preferences : UserPreferences) (filters : ExperienceFilters)
  : list TuningRecommendation :=
  flat_map
    (goal_candidates car_info user_preferences
                     (resolve_max_budget user_preferences) filters)
    (primary_goals user_preferences).

(** The ordinal reading of the safety levels: low < medium < high. *)
Definition SafetyLevel_rank (s : SafetyLevel) : nat :=
  match s with LOW => 0 | MEDIUM => 1 | HIGH => 2 end.

Definition spec_exceeds_ceiling (level ceiling : SafetyLevel) : bool :=
  Nat.ltb (SafetyLevel_rank ceiling) (SafetyLevel_rank level).

(** The adjusted score as the specification gives it:
    min(10.0, base * 1.2 * (0.7 or 1) * (1.1 or 1)). *)
Definition spec_min (a b : float) : float := if PrimFloat.leb a b then a else b.

Definition spec_adjusted_score (option : TuningOption)
    (level : ExperienceLevel) (budget : BudgetRange) : float :=
  spec_min 10.0
    (o_priority_score option * 1.2
     * (if ExperienceLevel_eqb level BEGINNER
           && SafetyLevel_eqb (o_safety_level option) HIGH
        then 0.7 else 1)
     * (if BudgetRange_eqb budget BUDGET
           && PrimFloat.ltb (cost_max (o_cost_range option)) 1000
        then 1.1 else 1))%float.

(** Deduplication as the specification words it: keep a recommendation
    when its key was not seen before. *)
Fixpoint spec_dedup (seen : list (TuningCategory * string))
    (recommendations : list TuningRecommendation) : list TuningRecommendation :=
  match recommendations with
  | [] => []
  | rec :: rest =>
      if set_mem (rec_key rec) seen then spec_dedup seen rest
      else rec :: spec_dedup (rec_key rec :: seen) rest
  end.

(** Two recommendations with the same (category, name) pair. *)
Definition same_pair (r x : TuningRecommendation) : bool :=
  TuningCategory_eqb (category x) (category r) && String.eqb (name x) (name r).

(** Deduplication as the specification words it, by position: the
    elements of the list whose (category, name) pair does not occur at an
    earlier position, in the order of the list. *)
Definition spec_first_occurrences (l : list TuningRecommendation)
  : list TuningRecommendation :=
  map snd
    (filter (fun ir => negb (existsb (same_pair (snd ir)) (firstn (fst ir) l)))
            (combine (seq 0 (length l)) l)).

(** The greedy pass as the specification words it: each accepted candidate
    with the amount it was accepted at. *)
Fixpoint spec_greedy_pass (max_budget spent : float)
    (candidates : list TuningRecommendation)
  : list (TuningRecommendation * float) :=
  match candidates with
  | [] => []
  | c :: rest =>
      let cost := cost_range c in
      if PrimFloat.leb (spent + cost_max cost) max_budget
      then (c, cost_max cost)
             :: spec_greedy_pass max_budget (spent + cost_max cost) rest
      else if PrimFloat.leb (spent + cost_min cost) max_budget
      then (c, cost_min cost)
             :: spec_greedy_pass max_budget (spent + cost_min cost) rest
      else spec_greedy_pass max_budget spent rest
  end.

(** The candidates the pass accepts from a working list, after
    deduplication and sorting, each with the amount charged. *)
Definition spec_accepted (all_recommendations : list TuningRecommendation)
    (max_budget : float) : list (TuningRecommendation * float) :=
  spec_greedy_pass max_budget 0
    (sorted_by_priority (_deduplicate_recommendations all_recommendations)).

(** [l1] is [l2] with some elements left out, the others in order. *)
Inductive Subseq {A : Type} : list A -> list A -> Prop :=
  | Subseq_nil : Subseq [] []
  | Subseq_drop : forall x l1 l2, Subseq l1 l2 -> Subseq l1 (x :: l2)
  | Subseq_keep : forall x l1 l2, Subseq l1 l2 -> Subseq (x :: l1) (x :: l2).

(** Descending, not strictly: every element scores at least as much as
    every later one. *)
Definition score_ge (a b : TuningRecommendation) : Prop :=
  PrimFloat.leb (priority_score b) (priority_score a) = true.

Definition same_score (a b : TuningRecommendation) : bool :=
  PrimFloat.eqb (priority_score b) (priority_score a).

(** The first recommendation of [l] filed under the key of [r]. *)
Definition first_with_key (r : TuningRecommendation)
    (l : list TuningRecommendation) : option TuningRecommendation :=
  find (fun x => key_eqb (rec_key r) (rec_key x)) l.

(** The catalogue as one list, and every score an adjustment can give
    to one of its options. *)
Definition all_categories : list TuningCategory :=
  [ECU_REMAPPING; EXHAUST_SYSTEM; SUSPENSION; AIR_INTAKE; TIRES_WHEELS;
   BRAKE_SYSTEM; COSMETIC].

Definition all_options : list TuningOption :=
  flat_map get_tuning_options_for_category all_categories.

Definition all_levels : list ExperienceLevel := [BEGINNER; INTERMEDIATE; ADVANCED].
Definition all_budgets : list BudgetRange := [BUDGET; MODERATE; PREMIUM; UNLIMITED].

Definition score_values : list float :=
  flat_map (fun o =>
    flat_map (fun lvl => map (spec_adjusted_score o lvl) all_budgets) all_levels)
    all_options.

(** The float comparisons restricted to a finite list of values: [<]
    implies [<=] and one of two values is [<=] the other, [<=] is
    transitive, equal values are not ordered by [<], and two values each
    [<=] the other are equal.  None of this holds of a NaN. *)
Definition implb' (a b : bool) : bool := if a then b else true.

Definition order_total_on (S : list float) : bool :=
  forallb (fun x => forallb (fun y =>
    if PrimFloat.ltb x y then PrimFloat.leb x y else PrimFloat.leb y x) S) S.

Definition order_trans_on (S : list float) : bool :=
  forallb (fun x => forallb (fun y => forallb (fun z =>
    implb' (PrimFloat.leb y x && PrimFloat.leb z y) (PrimFloat.leb z x)) S) S) S.

Definition order_eq_on (S : list float) : bool :=
  forallb (fun x => forallb (fun y => forallb (fun z =>
    implb' (PrimFloat.eqb x z && PrimFloat.eqb y z)
           (negb (PrimFloat.ltb x y))) S) S) S.

Definition order_antisym_on (S : list float) : bool :=
  forallb (fun x => forallb (fun y =>
    implb' (PrimFloat.leb x y && PrimFloat.leb y x) (PrimFloat.eqb x y)) S) S.

(** The field constraint [ge=0] on [max_budget]. *)
Definition max_budget_ge0 (user_preferences : UserPreferences) : Prop :=
  match max_budget user_preferences with
  | Some b => PrimFloat.leb 0 b = true
  | None => True
  end.

(** The report of a request that selects nothing. *)
Definition empty_report (car : CarInfo) (prefs : UserPreferences)
    (now : string) : TuningReport :=
  {| car_info := car;
     user_preferences := prefs;
     recommendations := [];
     total_estimated_cost :=
       {| total_min := 0; total_max := 0; currency := "USD" |};
     compatibility_matrix := [];
     safety_summary :=
       {| high_risk := []; medium_risk := []; low_risk := [] |};
     legal_summary :=
       {| warranty_impacts := []; emissions_impacts := [];
          insurance_impacts := []; legal_considerations_all := [] |};
     disclaimer := disclaimer_text;
     generated_at := now |}.

(** ** The scenarios of [test_api.py] *)

Definition bmw_3_series : CarInfo :=
  {| make := "BMW"; model := "3 Series"; year := 2021;
     engine_type := PETROL; current_modifications := [] |}.

Definition tesla_model_3 : CarInfo :=
  {| make := "Tesla"; model := "Model 3"; year := 2022;
     engine_type := ELECTRIC; current_modifications := [] |}.

Definition toyota_camry : CarInfo :=
  {| make := "Toyota"; model := "Camry"; year := 2020;
     engine_type := PETROL; current_modifications := [] |}.

Definition bmw_performance : UserPreferences :=
  {| primary_goals := [PERFORMANCE; TRACK_USE]; budget_range := PREMIUM;
     experience_level := ADVANCED; max_budget := Some 15000%float |}.

Definition tesla_electric : UserPreferences :=
  {| primary_goals := [PERFORMANCE; DAILY_COMFORT]; budget_range := MODERATE;
     experience_level := INTERMEDIATE; max_budget := Some 6000%float |}.

Definition toyota_beginner : UserPreferences :=
  {| primary_goals := [DAILY_COMFORT; FUEL_ECONOMY]; budget_range := BUDGET;
     experience_level := BEGINNER; max_budget := Some 2000%float |}.

Definition some_time : string := "2025-01-01T12:00:00".

(** * Properties *)

(** ** Equality tests *)

Lemma TuningCategory_eqb_eq (a b : TuningCategory) :
  TuningCategory_eqb a b = true <-> a = b.
Proof. destruct a, b; simpl; split; congruence. Qed.

Lemma key_eqb_eq (k1 k2 : TuningCategory * string) :
  key_eqb k1 k2 = true <-> k1 = k2.
Proof.
  destruct k1 as [c1 n1], k2 as [c2 n2]; unfold key_eqb; simpl.
  rewrite andb_true_iff, TuningCategory_eqb_eq, String.eqb_eq.
  split; [intros [-> ->]; reflexivity | intros E; inversion E; auto].
Qed.

Lemma key_eqb_refl (k : TuningCategory * string) : key_eqb k k = true.
Proof. apply key_eqb_eq; reflexivity. Qed.

Lemma set_mem_In (k : TuningCategory * string) seen :
  set_mem k seen = true <-> In k seen.
Proof.
  unfold set_mem; rewrite existsb_exists; split.
  - intros [k' [Hin E]]; apply key_eqb_eq in E; subst; assumption.
  - intros Hin; exists k; split; [assumption | apply key_eqb_refl].
Qed.

Lemma set_mem_false (k : TuningCategory * string) seen :
  set_mem k seen = false <-> ~ In k seen.
Proof.
  rewrite <- set_mem_In; destruct (set_mem k seen); split; congruence.
Qed.

(** ** Subsequences *)

Lemma Subseq_refl {A} (l : list A) : Subseq l l.
Proof. induction l; constructor; assumption. Qed.

Lemma Subseq_nil_l {A} (l : list A) : Subseq [] l.
Proof. induction l; constructor; assumption. Qed.

Lemma Subseq_trans {A} (l1 l2 l3 : list A) :
  Subseq l1 l2 -> Subseq l2 l3 -> Subseq l1 l3.
Proof.
  intros H12 H23; revert l1 H12.
  induction H23 as [| x l2 l3 H IH | x l2 l3 H IH]; intros l1 H12.
  - assumption.
  - constructor; apply IH; assumption.
  - inversion H12; subst; constructor; apply IH; assumption.
Qed.

Lemma Subseq_In {A} (l1 l2 : list A) :
  Subseq l1 l2 -> forall x, In x l1 -> In x l2.
Proof.
  induction 1 as [| y l1 l2 H IH | y l1 l2 H IH]; simpl; intros x Hx.
  - assumption.
  - right; apply IH; assumption.
  - destruct Hx as [-> | Hx]; [left; reflexivity | right; apply IH; assumption].
Qed.

Lemma Subseq_Forall {A} (P : A -> Prop) (l1 l2 : list A) :
  Subseq l1 l2 -> Forall P l2 -> Forall P l1.
Proof.
  intros S F; rewrite Forall_forall in *; intros x Hx.
  apply F, (Subseq_In _ _ S), Hx.
Qed.

Lemma Subseq_map {A B} (f : A -> B) (l1 l2 : list A) :
  Subseq l1 l2 -> Subseq (map f l1) (map f l2).
Proof. induction 1; simpl; constructor; assumption. Qed.

Lemma Subseq_filter {A} (p : A -> bool) (l1 l2 : list A) :
  Subseq l1 l2 -> Subseq (filter p l1) (filter p l2).
Proof.
  induction 1 as [| x l1 l2 H IH | x l1 l2 H IH]; simpl.
  - constructor.
  - destruct (p x); [constructor|]; assumption.
  - destruct (p x); [constructor|]; assumption.
Qed.

Lemma Subseq_firstn {A} (n : nat) (l : list A) : Subseq (firstn n l) l.
Proof.
  revert n; induction l as [| x l IH]; intros [| n]; simpl.
  - constructor.
  - constructor.
  - apply Subseq_nil_l.
  - apply Subseq_keep, IH.
Qed.

Lemma Subseq_NoDup {A} (l1 l2 : list A) :
  Subseq l1 l2 -> NoDup l2 -> NoDup l1.
Proof.
  induction 1 as [| x l1 l2 H IH | x l1 l2 H IH]; intros ND.
  - assumption.
  - inversion ND; subst; auto.
  - inversion ND as [| ? ? Hnot ND']; subst; constructor.
    + intros Hin; apply Hnot, (Subseq_In _ _ H), Hin.
    + apply IH; assumption.
Qed.

Lemma Subseq_StronglySorted {A} (R : A -> A -> Prop) (l1 l2 : list A) :
  Subseq l1 l2 -> StronglySorted R l2 -> StronglySorted R l1.
Proof.
  induction 1 as [| x l1 l2 H IH | x l1 l2 H IH]; intros S.
  - assumption.
  - inversion S; subst; auto.
  - inversion S as [| ? ? S' F]; subst; constructor.
    + apply IH; assumption.
    + apply (Subseq_Forall _ _ _ H F).
Qed.

(** ** The loops of step 3 as list expressions *)

(** Every goal has its category list: the subscript cannot raise. *)
Lemma goal_priorities_defined (g : DrivingGoal) :
  subscript DrivingGoal_eqb goal_priorities g
  = Ok (get DrivingGoal_eqb goal_priorities g []).
Proof. destruct g; reflexivity. Qed.

Section Loops.
Variables (car : CarInfo) (prefs : UserPreferences) (goal : DrivingGoal)
          (mb : float) (filters : ExperienceFilters).

Lemma option_step_fold (c : TuningCategory) (opts : list TuningOption)
    (acc : list TuningRecommendation) :
  fold_left (option_step car prefs goal mb filters c) opts acc
  = acc ++ map (adjusted prefs goal c) (filter (accepts car mb filters) opts).
Proof.
  revert acc; induction opts as [| o opts IH]; intros acc; simpl.
  - rewrite app_nil_r; reflexivity.
  - rewrite IH; unfold option_step, accepts at 2.
    destruct (_passes_experience_filters o filters); simpl; [| reflexivity].
    destruct (float_gt (cost_max (o_cost_range o)) mb); simpl; [reflexivity |].
    destruct (_is_compatible_with_engine o (engine_type car)); simpl;
      [| reflexivity].
    rewrite <- app_assoc; reflexivity.
Qed.

Lemma category_step_fold (cats : list TuningCategory)
    (acc : list TuningRecommendation) :
  fold_left (category_step car prefs goal mb filters) cats acc
  = acc ++ flat_map
             (fun c => map (adjusted prefs goal c)
                           (filter (accepts car mb filters)
                                   (get_tuning_options_for_category c)))
             cats.
Proof.
  revert acc; induction cats as [| c cats IH]; intros acc; simpl.
  - rewrite app_nil_r; reflexivity.
  - rewrite IH; unfold category_step; rewrite option_step_fold, app_assoc.
    reflexivity.
Qed.

Lemma generate_goal_recommendations_eq :
  _generate_goal_recommendations car prefs goal mb filters
  = Ok (goal_candidates car prefs mb filters goal).
Proof.
  unfold _generate_goal_recommendations, goal_candidates.
  rewrite goal_priorities_defined; unfold bind.
  rewrite category_step_fold; reflexivity.
Qed.
End Loops.

Lemma goals_loop_eq car prefs mb filters (goals : list DrivingGoal)
    (acc : list TuningRecommendation) :
  goals_loop car prefs mb filters goals acc
  = Ok (acc ++ flat_map (goal_candidates car prefs mb filters) goals).
Proof.
  revert acc; induction goals as [| g goals IH]; intros acc; simpl.
  - rewrite app_nil_r; reflexivity.
  - rewrite generate_goal_recommendations_eq; simpl.
    rewrite IH, app_assoc; reflexivity.
Qed.

(** Every experience level has its bundle: the subscript cannot raise. *)
Lemma experience_filters_defined (level : ExperienceLevel) :
  exists f, subscript ExperienceLevel_eqb experience_filters level = Ok f.
Proof. destruct level; eexists; reflexivity. Qed.

Lemma collect_recommendations_eq car prefs wl :
  collect_recommendations car prefs = Ok wl ->
  exists f,
    subscript ExperienceLevel_eqb experience_filters (experience_level prefs)
    = Ok f
    /\ wl = working_list car prefs f.
Proof.
  unfold collect_recommendations; intros H.
  destruct (experience_filters_defined (experience_level prefs)) as [f Hf].
  rewrite Hf in H; simpl in H; rewrite goals_loop_eq in H.
  exists f; split; [assumption |]; inversion H; reflexivity.
Qed.

Lemma collect_recommendations_total car prefs :
  exists wl, collect_recommendations car prefs = Ok wl.
Proof.
  unfold collect_recommendations.
  destruct (experience_filters_defined (experience_level prefs)) as [f Hf].
  rewrite Hf; simpl; rewrite goals_loop_eq; eexists; reflexivity.
Qed.

Lemma generate_recommendations_inv car prefs now rep :
  generate_recommendations car prefs now = Ok rep ->
  exists wl,
    collect_recommendations car prefs = Ok wl
    /\ recommendations rep
       = select_recommendations wl (resolve_max_budget prefs)
    /\ total_estimated_cost rep = _calculate_total_cost (recommendations rep).
Proof.
  unfold generate_recommendations; intros H.
  destruct (collect_recommendations car prefs) as [wl |]; simpl in H;
    [| discriminate].
  inversion H; subst; simpl; exists wl; auto.
Qed.

(** The engine returns a report on every input. *)
Lemma generate_recommendations_total car prefs now :
  exists rep, generate_recommendations car prefs now = Ok rep.
Proof.
  unfold generate_recommendations.
  destruct (collect_recommendations_total car prefs) as [wl ->]; simpl.
  eexists; reflexivity.
Qed.

(** ** Deduplication *)

Lemma dedup_loop_eq (recs : list TuningRecommendation) seen unique :
  dedup_loop recs seen unique = unique ++ spec_dedup seen recs.
Proof.
  revert seen unique; induction recs as [| r recs IH]; intros seen unique; simpl.
  - rewrite app_nil_r; reflexivity.
  - destruct (set_mem (rec_key r) seen); simpl.
    + apply IH.
    + rewrite IH, <- app_assoc; reflexivity.
Qed.

Lemma deduplicate_recommendations_eq (recs : list TuningRecommendation) :
  _deduplicate_recommendations recs = spec_dedup [] recs.
Proof. unfold _deduplicate_recommendations; apply dedup_loop_eq. Qed.

Lemma spec_dedup_Subseq seen (recs : list TuningRecommendation) :
  Subseq (spec_dedup seen recs) recs.
Proof.
  revert seen; induction recs as [| r recs IH]; intros seen; simpl.
  - constructor.
  - destruct (set_mem (rec_key r) seen); constructor; apply IH.
Qed.

Lemma spec_dedup_fresh seen (recs : list TuningRecommendation) r :
  In r (spec_dedup seen recs) -> ~ In (rec_key r) seen.
Proof.
  revert seen; induction recs as [| x recs IH]; intros seen; simpl.
  - intros [].
  - destruct (set_mem (rec_key x) seen) eqn:E.
    + apply IH.
    + intros [-> | Hin].
      * apply set_mem_false; assumption.
      * intros Hseen; apply (IH _ Hin); right; assumption.
Qed.

Lemma spec_dedup_NoDup seen (recs : list TuningRecommendation) :
  NoDup (map rec_key (spec_dedup seen recs)).
Proof.
  revert seen; induction recs as [| x recs IH]; intros seen; simpl.
  - constructor.
  - destruct (set_mem (rec_key x) seen); [apply IH |].
    simpl; constructor; [| apply IH].
    rewrite in_map_iff; intros [y [Hk Hy]].
    apply spec_dedup_fresh in Hy; apply Hy; left; symmetry; assumption.
Qed.

Lemma spec_dedup_first seen (recs : list TuningRecommendation) r :
  ~ In (rec_key r) seen ->
  first_with_key r (spec_dedup seen recs) = first_with_key r recs.
Proof.
  unfold first_with_key; revert seen.
  induction recs as [| x recs IH]; intros seen Hfresh; simpl; [reflexivity |].
  destruct (set_mem (rec_key x) seen) eqn:E.
  - destruct (key_eqb (rec_key r) (rec_key x)) eqn:K.
    + apply key_eqb_eq in K; apply set_mem_In in E.
      rewrite <- K in E; contradiction.
    + apply IH; assumption.
  - simpl; destruct (key_eqb (rec_key r) (rec_key x)) eqn:K; [reflexivity |].
    apply IH; intros [Heq | Hin]; [| contradiction].
    rewrite Heq, key_eqb_refl in K; discriminate.
Qed.

(** ** Sorting *)

Lemma insert_desc_Permutation x l : Permutation (insert_desc x l) (x :: l).
Proof.
  induction l as [| y l IH]; simpl; [apply Permutation_refl |].
  destruct (PrimFloat.ltb (priority_score x) (priority_score y)).
  - apply Permutation_trans with (y :: x :: l);
      [apply perm_skip, IH | apply perm_swap].
  - apply Permutation_refl.
Qed.

Lemma sorted_by_priority_Permutation l : Permutation (sorted_by_priority l) l.
Proof.
  induction l as [| x l IH]; simpl; [constructor |].
  apply Permutation_trans with (x :: sorted_by_priority l);
    [apply insert_desc_Permutation | apply perm_skip, IH].
Qed.

Lemma implb'_true (a b : bool) : implb' a b = true -> a = true -> b = true.
Proof. intros H ->; exact H. Qed.

Section SortOnValues.
(** [S] lists the scores that can occur, and the float order behaves on it. *)
Variable S : list float.
Hypothesis S_total : order_total_on S = true.
Hypothesis S_trans : order_trans_on S = true.
Hypothesis S_eq : order_eq_on S = true.
Hypothesis S_antisym : order_antisym_on S = true.

Definition scores_in (l : list TuningRecommendation) : Prop :=
  Forall (fun r => In (priority_score r) S) l.

Lemma total_on x y :
  In x S -> In y S -> PrimFloat.ltb x y = false -> PrimFloat.leb y x = true.
Proof.
  intros Hx Hy Hlt; unfold order_total_on in S_total.
  rewrite forallb_forall in S_total; specialize (S_total x Hx).
  rewrite forallb_forall in S_total; specialize (S_total y Hy).
  rewrite Hlt in S_total; exact S_total.
Qed.

Lemma lt_le_on x y :
  In x S -> In y S -> PrimFloat.ltb x y = true -> PrimFloat.leb x y = true.
Proof.
  intros Hx Hy Hlt; unfold order_total_on in S_total.
  rewrite forallb_forall in S_total; specialize (S_total x Hx).
  rewrite forallb_forall in S_total; specialize (S_total y Hy).
  rewrite Hlt in S_total; exact S_total.
Qed.

Lemma trans_on x y z :
  In x S -> In y S -> In z S ->
  PrimFloat.leb y x = true -> PrimFloat.leb z y = true ->
  PrimFloat.leb z x = true.
Proof.
  intros Hx Hy Hz Hyx Hzy; unfold order_trans_on in S_trans.
  rewrite forallb_forall in S_trans; specialize (S_trans x Hx).
  rewrite forallb_forall in S_trans; specialize (S_trans y Hy).
  rewrite forallb_forall in S_trans; specialize (S_trans z Hz).
  apply (implb'_true _ _ S_trans); rewrite Hyx, Hzy; reflexivity.
Qed.

Lemma eq_on x y z :
  In x S -> In y S -> In z S ->
  PrimFloat.eqb x z = true -> PrimFloat.eqb y z = true ->
  PrimFloat.ltb x y = false.
Proof.
  intros Hx Hy Hz Hxz Hyz; unfold order_eq_on in S_eq.
  rewrite forallb_forall in S_eq; specialize (S_eq x Hx).
  rewrite forallb_forall in S_eq; specialize (S_eq y Hy).
  rewrite forallb_forall in S_eq; specialize (S_eq z Hz).
  apply negb_true_iff, (implb'_true _ _ S_eq); rewrite Hxz, Hyz; reflexivity.
Qed.

Lemma scores_in_insert x l :
  scores_in (x :: l) -> scores_in (insert_desc x l).
Proof.
  unfold scores_in; intros H.
  apply (Permutation_Forall (Permutation_sym (insert_desc_Permutation x l)) H).
Qed.

Lemma scores_in_sorted l : scores_in l -> scores_in (sorted_by_priority l).
Proof.
  unfold scores_in; intros H.
  apply (Permutation_Forall (Permutation_sym (sorted_by_priority_Permutation l)) H).
Qed.

Lemma insert_desc_sorted x l :
  scores_in (x :: l) ->
  StronglySorted score_ge l -> StronglySorted score_ge (insert_desc x l).
Proof.
  intros Hin Hs; revert Hin.
  induction Hs as [| y l Hs IH Hy]; intros Hin; simpl.
  - repeat constructor.
  - inversion Hin as [| ? ? Hx Hyl]; subst.
    inversion Hyl as [| ? ? Hy' Hl]; subst.
    destruct (PrimFloat.ltb (priority_score x) (priority_score y)) eqn:E.
    + constructor.
      * apply IH; constructor; assumption.
      * apply (Permutation_Forall
                 (Permutation_sym (insert_desc_Permutation x l))).
        constructor; [| assumption].
        apply lt_le_on; assumption.
    + assert (Hxy : score_ge x y) by (apply total_on; assumption).
      constructor; [constructor; assumption |].
      constructor; [assumption |].
      rewrite Forall_forall in *; intros z Hz.
      apply (trans_on _ (priority_score y)); auto.
      apply Hy; assumption.
Qed.

Lemma sorted_by_priority_sorted l :
  scores_in l -> StronglySorted score_ge (sorted_by_priority l).
Proof.
  induction l as [| x l IH]; intros Hin; simpl; [constructor |].
  inversion Hin; subst.
  apply insert_desc_sorted; [| apply IH; assumption].
  constructor; [assumption | apply scores_in_sorted; assumption].
Qed.

(** An element passes only strictly greater scores, so the elements of one
    score keep their order. *)
Lemma insert_desc_filter r x l :
  In (priority_score r) S -> scores_in (x :: l) ->
  filter (same_score r) (insert_desc x l) = filter (same_score r) (x :: l).
Proof.
  intros Hr Hin; inversion Hin as [| ? ? Hx Hl]; subst; clear Hin.
  induction l as [| y l IH]; [reflexivity |].
  inversion Hl as [| ? ? Hy Hl']; subst.
  simpl; destruct (PrimFloat.ltb (priority_score x) (priority_score y)) eqn:E;
    [| reflexivity].
  simpl; rewrite (IH Hl'); simpl.
  destruct (same_score r x) eqn:Ex, (same_score r y) eqn:Ey; try reflexivity.
  unfold same_score in Ex, Ey.
  rewrite (eq_on _ _ (priority_score r) Hx Hy Hr Ex Ey) in E; discriminate.
Qed.

Lemma sorted_by_priority_stable r l :
  In (priority_score r) S -> scores_in l ->
  filter (same_score r) (sorted_by_priority l) = filter (same_score r) l.
Proof.
  intros Hr; induction l as [| x l IH]; intros Hin; [reflexivity |].
  inversion Hin; subst; simpl sorted_by_priority.
  rewrite insert_desc_filter;
    [| assumption | constructor; [assumption | apply scores_in_sorted; assumption]].
  simpl; rewrite IH by assumption; reflexivity.
Qed.
Lemma antisym_on x y :
  In x S -> In y S ->
  PrimFloat.leb x y = true -> PrimFloat.leb y x = true ->
  PrimFloat.eqb x y = true.
Proof.
  intros Hx Hy Hxy Hyx; unfold order_antisym_on in S_antisym.
  rewrite forallb_forall in S_antisym; specialize (S_antisym x Hx).
  rewrite forallb_forall in S_antisym; specialize (S_antisym y Hy).
  apply (implb'_true _ _ S_antisym); rewrite Hxy, Hyx; reflexivity.
Qed.

Lemma le_refl_on x : In x S -> PrimFloat.leb x x = true.
Proof.
  intros Hx; destruct (PrimFloat.ltb x x) eqn:E;
    [apply lt_le_on | apply total_on]; assumption.
Qed.

Lemma head_is_greatest a l b :
  scores_in (a :: l) -> StronglySorted score_ge (a :: l) ->
  In b (a :: l) -> score_ge a b.
Proof.
  intros Hin Hs [<- | Hb].
  - inversion Hin; subst; apply le_refl_on; assumption.
  - inversion Hs as [| ? ? _ F]; subst.
    rewrite Forall_forall in F; apply F, Hb.
Qed.

(** The model of [sorted] is no choice: any descending stable
    rearrangement of a list is the one the insertion sort returns. *)
Lemma stable_sorts_agree l1 :
  forall l2,
    scores_in l1 -> Permutation l1 l2 ->
    StronglySorted score_ge l1 -> StronglySorted score_ge l2 ->
    (forall r, In r l1 -> filter (same_score r) l1 = filter (same_score r) l2) ->
    l1 = l2.
Proof.
  induction l1 as [| a l1 IH]; intros l2 Hin P S1 S2 F.
  - apply Permutation_nil in P; subst; reflexivity.
  - destruct l2 as [| b l2];
      [apply Permutation_sym, Permutation_nil in P; discriminate |].
    assert (Hin2 : scores_in (b :: l2)) by (apply (Permutation_Forall P Hin)).
    assert (Hab : score_ge a b)
      by (apply (head_is_greatest a l1); auto;
          apply (Permutation_in _ (Permutation_sym P)); left; reflexivity).
    assert (Hba : score_ge b a)
      by (apply (head_is_greatest b l2); auto;
          apply (Permutation_in _ P); left; reflexivity).
    assert (Ha : In (priority_score a) S) by (inversion Hin; assumption).
    assert (Hb : In (priority_score b) S) by (inversion Hin2; assumption).
    assert (E : a = b).
    { specialize (F a (or_introl eq_refl)); simpl in F.
      assert (Eaa : same_score a a = true)
        by (apply antisym_on; auto using le_refl_on).
      assert (Eab : same_score a b = true) by (apply antisym_on; assumption).
      rewrite Eaa, Eab in F; injection F as E _; exact E. }
    subst b; f_equal; apply IH.
    + inversion Hin; assumption.
    + apply (Permutation_cons_inv P).
    + inversion S1; assumption.
    + inversion S2; assumption.
    + intros r Hr; specialize (F r (or_intror Hr)); simpl in F.
      destruct (same_score r a); [injection F as F |]; exact F.
Qed.

Lemma sorted_by_priority_unique l l' :
  scores_in l -> Permutation l' l -> StronglySorted score_ge l' ->
  (forall r, In r l -> filter (same_score r) l' = filter (same_score r) l) ->
  l' = sorted_by_priority l.
Proof.
  intros Hin P S' F.
  assert (Hscore : forall r, In r l -> In (priority_score r) S)
    by (unfold scores_in in Hin; rewrite Forall_forall in Hin; exact Hin).
  apply stable_sorts_agree.
  - apply (Permutation_Forall (Permutation_sym P) Hin).
  - apply (Permutation_trans P),
      Permutation_sym, sorted_by_priority_Permutation.
  - exact S'.
  - apply sorted_by_priority_sorted; exact Hin.
  - intros r Hr; apply (Permutation_in _ P) in Hr.
    rewrite (F r Hr), sorted_by_priority_stable; auto.
Qed.
End SortOnValues.

(** ** The budget pass *)

Lemma budget_loop_eq (recs : list TuningRecommendation) mb filtered total :
  budget_loop recs mb filtered total
  = filtered ++ map fst (spec_greedy_pass mb total recs).
Proof.
  revert filtered total; induction recs as [| r recs IH];
    intros filtered total; simpl.
  - rewrite app_nil_r; reflexivity.
  - destruct (PrimFloat.leb (total + cost_max (cost_range r)) mb).
    + rewrite IH, <- app_assoc; reflexivity.
    + destruct (PrimFloat.leb (total + cost_min (cost_range r)) mb).
      * rewrite IH, <- app_assoc; reflexivity.
      * apply IH.
Qed.

Lemma filter_by_budget_eq (recs : list TuningRecommendation) mb :
  _filter_by_budget recs mb
  = map fst (firstn 10 (spec_greedy_pass mb 0 recs)).
Proof.
  unfold _filter_by_budget; rewrite budget_loop_eq, app_nil_l.
  apply firstn_map.
Qed.

Lemma spec_greedy_pass_Subseq mb spent (recs : list TuningRecommendation) :
  Subseq (map fst (spec_greedy_pass mb spent recs)) recs.
Proof.
  revert spent; induction recs as [| r recs IH]; intros spent; simpl.
  - constructor.
  - destruct (PrimFloat.leb (spent + cost_max (cost_range r)) mb);
      [simpl; constructor; apply IH |].
    destruct (PrimFloat.leb (spent + cost_min (cost_range r)) mb);
      [simpl; constructor; apply IH |].
    constructor; apply IH.
Qed.

(** After each acceptance the running total is within the budget. *)
Lemma spec_greedy_pass_within mb (recs : list TuningRecommendation) :
  forall spent k,
    1 <= k <= length (spec_greedy_pass mb spent recs) ->
    PrimFloat.leb
      (fold_left PrimFloat.add
         (map snd (firstn k (spec_greedy_pass mb spent recs))) spent)
      mb = true.
Proof.
  assert (step : forall (c : TuningRecommendation) a spent rest k,
             PrimFloat.leb (spent + a) mb = true ->
             (forall k',
                 1 <= k' <= length rest ->
                 PrimFloat.leb
                   (fold_left PrimFloat.add (map snd (firstn k' rest))
                              (spent + a)%float) mb = true) ->
             1 <= k <= length ((c, a) :: rest) ->
             PrimFloat.leb
               (fold_left PrimFloat.add
                          (map snd (firstn k ((c, a) :: rest))) spent)
               mb = true).
  { intros c a spent rest k Ha IH Hk.
    destruct k as [| k]; [lia |]; simpl.
    destruct k as [| k]; [exact Ha |].
    apply IH; simpl in Hk; lia. }
  induction recs as [| r recs IH]; intros spent k Hk; simpl in *.
  - lia.
  - destruct (PrimFloat.leb (spent + cost_max (cost_range r)) mb) eqn:E1.
    + apply step; [exact E1 | intros; apply IH; assumption | exact Hk].
    + destruct (PrimFloat.leb (spent + cost_min (cost_range r)) mb) eqn:E2.
      * apply step; [exact E2 | intros; apply IH; assumption | exact Hk].
      * apply IH; exact Hk.
Qed.

(** ** From the working list to the report *)

Lemma select_recommendations_eq wl mb :
  select_recommendations wl mb
  = map fst (firstn 10
       (spec_greedy_pass mb 0 (sorted_by_priority (spec_dedup [] wl)))).
Proof.
  unfold select_recommendations.
  rewrite filter_by_budget_eq, deduplicate_recommendations_eq; reflexivity.
Qed.

Lemma select_Subseq_sorted wl mb :
  Subseq (select_recommendations wl mb)
         (sorted_by_priority (_deduplicate_recommendations wl)).
Proof.
  rewrite select_recommendations_eq, deduplicate_recommendations_eq.
  rewrite <- firstn_map.
  apply (Subseq_trans _ _ _ (Subseq_firstn _ _)), spec_greedy_pass_Subseq.
Qed.

Lemma select_In wl mb r :
  In r (select_recommendations wl mb) -> In r wl.
Proof.
  intros H; apply (Subseq_In _ _ (select_Subseq_sorted wl mb)) in H.
  apply (Permutation_in _ (sorted_by_priority_Permutation _)) in H.
  rewrite deduplicate_recommendations_eq in H.
  apply (Subseq_In _ _ (spec_dedup_Subseq [] wl)), H.
Qed.

Lemma select_Forall (P : TuningRecommendation -> Prop) wl mb :
  Forall P wl -> Forall P (select_recommendations wl mb).
Proof.
  rewrite !Forall_forall; intros H r Hr; apply H, (select_In _ _ _ Hr).
Qed.

(** Every candidate of the working list comes from an accepted option. *)
Lemma working_list_In car prefs f r :
  In r (working_list car prefs f) ->
  exists goal c o,
    In goal (primary_goals prefs)
    /\ In o (get_tuning_options_for_category c)
    /\ accepts car (resolve_max_budget prefs) f o = true
    /\ r = adjusted prefs goal c o.
Proof.
  unfold working_list, goal_candidates; rewrite in_flat_map.
  intros [goal [Hg H]]; rewrite in_flat_map in H.
  destruct H as [c [_ H]]; rewrite in_map_iff in H.
  destruct H as [o [<- Ho]]; apply filter_In in Ho; destruct Ho as [Ho Ha].
  exists goal, c, o; auto.
Qed.

(** ** The adjusted score *)

Lemma goal_in_primary_goals (goal : DrivingGoal) goals :
  In goal goals -> existsb (DrivingGoal_eqb goal) goals = true.
Proof.
  intros H; apply existsb_exists; exists goal; split; [assumption |].
  destruct goal; reflexivity.
Qed.

Ltac each_option H :=
  cbv [get_tuning_options_for_category get dict_find tuning_options
       TuningCategory_eqb In] in H;
  repeat (destruct H as [<- | H]); try contradiction.

(** On the options of the catalogue the code and the formula agree,
    whenever the goal is one of the primary goals. *)
Lemma adjust_priority_score_spec prefs goal c o :
  In goal (primary_goals prefs) ->
  In o (get_tuning_options_for_category c) ->
  _adjust_priority_score (recommendation_of c o) goal prefs
  = spec_adjusted_score o (experience_level prefs) (budget_range prefs).
Proof.
  intros Hg Ho; apply goal_in_primary_goals in Hg.
  unfold _adjust_priority_score; rewrite Hg; clear Hg.
  destruct prefs as [goals br lvl mbo]; simpl.
  destruct c; each_option Ho; destruct lvl, br; vm_compute; reflexivity.
Qed.

Lemma option_in_catalogue c o :
  In o (get_tuning_options_for_category c) -> In o all_options.
Proof.
  intros H; unfold all_options; apply in_flat_map; exists c; split;
    [destruct c; simpl; tauto | assumption].
Qed.

Lemma spec_adjusted_score_in_values o lvl br :
  In o all_options -> In (spec_adjusted_score o lvl br) score_values.
Proof.
  intros Ho; unfold score_values; apply in_flat_map; exists o; split;
    [assumption |].
  apply in_flat_map; exists lvl; split; [destruct lvl; simpl; tauto |].
  apply in_map; destruct br; simpl; tauto.
Qed.

Lemma score_values_total : order_total_on score_values = true.
Proof. vm_compute; reflexivity. Qed.

Lemma score_values_trans : order_trans_on score_values = true.
Proof. vm_compute; reflexivity. Qed.

Lemma score_values_eq : order_eq_on score_values = true.
Proof. vm_compute; reflexivity. Qed.

Lemma score_values_antisym : order_antisym_on score_values = true.
Proof. vm_compute; reflexivity. Qed.

Lemma working_list_spec car prefs f :
  Forall
    (fun r =>
       exists c o,
         In o (get_tuning_options_for_category c)
         /\ r = set_priority_score (recommendation_of c o)
                  (spec_adjusted_score o (experience_level prefs)
                                       (budget_range prefs)))
    (working_list car prefs f).
Proof.
  apply Forall_forall; intros r Hr.
  destruct (working_list_In _ _ _ _ Hr) as [goal [c [o [Hg [Ho [_ ->]]]]]].
  exists c, o; split; [assumption |].
  unfold adjusted; rewrite (adjust_priority_score_spec _ _ _ _ Hg Ho).
  reflexivity.
Qed.

Lemma working_list_scores car prefs f :
  scores_in score_values (working_list car prefs f).
Proof.
  unfold scores_in.
  apply (Forall_impl _ (P := fun r : TuningRecommendation =>
           exists c o,
             In o (get_tuning_options_for_category c)
             /\ r = set_priority_score (recommendation_of c o)
                      (spec_adjusted_score o (experience_level prefs)
                                           (budget_range prefs))));
    [| apply working_list_spec].
  intros r [c [o [Ho ->]]]; simpl.
  apply spec_adjusted_score_in_values, (option_in_catalogue c), Ho.
Qed.

(** ** The safety ceiling (C1, C10) *)

(** C1.  The safety ceiling of the experience filter compares the
    [.value] strings, not the ordinals: it rejects exactly the pairs
    (low, high), (medium, high) and (medium, low).  At the option
    "Cold Air Intake System" (safety low) and the intermediate level
    (ceiling high) the ordinal reading low < medium < high says the
    ceiling is not exceeded, yet the ceiling test fires and the filter
    rejects the option; at a high-safety level under the beginner ceiling
    medium the ordinal reading says exceeded and the test does not fire. *)
Theorem safety_ceiling_compares_strings :
  (forall level ceiling,
      safety_ceiling_rejects level ceiling
      = match level, ceiling with
        | LOW, HIGH | MEDIUM, HIGH | MEDIUM, LOW => true
        | _, _ => false
        end)
  /\ (exists f,
         subscript ExperienceLevel_eqb experience_filters INTERMEDIATE = Ok f
         /\ spec_exceeds_ceiling (o_safety_level Cold_Air_Intake_System)
                                 (max_safety_level f) = false
         /\ safety_ceiling_rejects (o_safety_level Cold_Air_Intake_System)
                                   (max_safety_level f) = true
         /\ _passes_experience_filters Cold_Air_Intake_System f = false)
  /\ (exists f,
         subscript ExperienceLevel_eqb experience_filters BEGINNER = Ok f
         /\ spec_exceeds_ceiling (o_safety_level Big_Brake_Kit)
                                 (max_safety_level f) = true
         /\ safety_ceiling_rejects (o_safety_level Big_Brake_Kit)
                                   (max_safety_level f) = false).
Proof.
  split; [intros level ceiling; destruct level, ceiling; reflexivity |].
  split; eexists; (split; [reflexivity |]); repeat split; reflexivity.
Qed.

Lemma passes_under_high_ceiling o f :
  max_safety_level f = HIGH ->
  _passes_experience_filters o f = true -> o_safety_level o = HIGH.
Proof.
  unfold _passes_experience_filters; intros ->.
  destruct (o_safety_level o); simpl; intros H;
    [discriminate | discriminate | reflexivity].
Qed.

Lemma accepts_passes car mb f o :
  accepts car mb f o = true -> _passes_experience_filters o f = true.
Proof.
  unfold accepts; intros H.
  apply andb_true_iff in H; destruct H as [H _].
  apply andb_true_iff in H; destruct H as [H _]; exact H.
Qed.

Lemma accepts_compatible car mb f o :
  accepts car mb f o = true ->
  _is_compatible_with_engine o (engine_type car) = true.
Proof.
  unfold accepts; intros H; apply andb_true_iff in H; destruct H as [_ H].
  exact H.
Qed.

(** C10.  For an intermediate or advanced user the engine returns a report
    all of whose recommendations have safety level high: the ceiling of
    these levels is "high", and both "low" and "medium" are greater than
    "high" as strings, so the ceiling test rejects every low and medium
    option. *)
Theorem intermediate_advanced_only_high car prefs now :
  experience_level prefs = INTERMEDIATE \/ experience_level prefs = ADVANCED ->
  exists rep,
    generate_recommendations car prefs now = Ok rep
    /\ Forall (fun r => safety_level r = HIGH) (recommendations rep)
    /\ str_gt "low" "high" = true
    /\ str_gt "medium" "high" = true
    /\ safety_ceiling_rejects LOW HIGH = true
    /\ safety_ceiling_rejects MEDIUM HIGH = true.
Proof.
  intros Hlvl.
  destruct (generate_recommendations_total car prefs now) as [rep Hrep].
  exists rep; split; [exact Hrep |].
  split; [| repeat split; reflexivity].
  destruct (generate_recommendations_inv _ _ _ _ Hrep) as [wl [Hwl [-> _]]].
  destruct (collect_recommendations_eq _ _ _ Hwl) as [f [Hf ->]].
  apply select_Forall, Forall_forall; intros r Hr.
  destruct (working_list_In _ _ _ _ Hr) as [goal [c [o [_ [_ [Ha ->]]]]]].
  simpl; apply (passes_under_high_ceiling o f);
    [| apply (accepts_passes _ _ _ _ Ha)].
  destruct Hlvl as [E | E]; rewrite E in Hf; inversion Hf; reflexivity.
Qed.

Lemma intermediate_advanced_only_high_witness :
  experience_level bmw_performance = ADVANCED
  /\ exists rep,
      generate_recommendations bmw_3_series bmw_performance some_time = Ok rep
      /\ map name (recommendations rep) = ["Stage 2 ECU Remap"; "Big Brake Kit"]
      /\ Forall (fun r => safety_level r = HIGH) (recommendations rep).
Proof.
  split; [reflexivity |].
  destruct (intermediate_advanced_only_high bmw_3_series bmw_performance
              some_time (or_intror eq_refl)) as [rep [Hrep [Hall _]]].
  exists rep; split; [exact Hrep |]; split; [| exact Hall].
  vm_compute in Hrep; inversion Hrep; reflexivity.
Defined.

(** ** The spending cap (C3) *)

Lemma resolve_max_budget_cases prefs :
  resolve_max_budget prefs
  = match max_budget prefs with
    | None => cost_max (get_budget_range (budget_range prefs))
    | Some b =>
        if PrimFloat.eqb b 0
        then cost_max (get_budget_range (budget_range prefs))
        else b
    end.
Proof. unfold resolve_max_budget, float_or; destruct (max_budget prefs); reflexivity. Qed.




(** ** Engine compatibility (C7) *)

Lemma compatible_not_electric o e :
  e <> ELECTRIC -> _is_compatible_with_engine o e = true.
Proof.
  unfold _is_compatible_with_engine; intros He.
  destruct e; try reflexivity; [rewrite andb_false_r; reflexivity ..
                               | contradiction].
Qed.

Lemma compatible_electric o :
  _is_compatible_with_engine o ELECTRIC = true ->
  str_contains "ECU" (o_name o) = false.
Proof.
  unfold _is_compatible_with_engine.
  destruct (str_contains "ECU" (o_name o)); simpl; congruence.
Qed.

(** C7.  For an electric vehicle the engine returns a report in which no
    recommendation has "ECU" in its name; for every other engine type the
    compatibility rule accepts every option. *)
Theorem electric_has_no_ECU car prefs now (o : TuningOption) :
  (engine_type car = ELECTRIC ->
   exists rep,
     generate_recommendations car prefs now = Ok rep
     /\ Forall (fun r => str_contains "ECU" (name r) = false)
               (recommendations rep))
  /\ (engine_type car <> ELECTRIC ->
      _is_compatible_with_engine o (engine_type car) = true).
Proof.
  split; [intros He | apply compatible_not_electric].
  destruct (generate_recommendations_total car prefs now) as [rep Hrep].
  exists rep; split; [exact Hrep |].
  destruct (generate_recommendations_inv _ _ _ _ Hrep) as [wl [Hwl [-> _]]].
  destruct (collect_recommendations_eq _ _ _ Hwl) as [f [Hf ->]].
  apply select_Forall, Forall_forall; intros r Hr.
  destruct (working_list_In _ _ _ _ Hr) as [goal [c [o' [_ [_ [Ha ->]]]]]].
  simpl; apply compatible_electric.
  rewrite <- He; apply (accepts_compatible _ _ _ _ Ha).
Qed.

Lemma electric_has_no_ECU_witness :
  (exists rep,
      generate_recommendations tesla_model_3 tesla_electric some_time = Ok rep
      /\ map name (recommendations rep) = ["Big Brake Kit"]
      /\ Forall (fun r => str_contains "ECU" (name r) = false)
                (recommendations rep))
  /\ _is_compatible_with_engine Stage_1_ECU_Remap (engine_type bmw_3_series)
     = true.
Proof.
  split.
  - destruct (proj1 (electric_has_no_ECU tesla_model_3 tesla_electric
                       some_time Stage_1_ECU_Remap) eq_refl)
      as [rep [Hrep Hall]].
    exists rep; split; [exact Hrep |]; split; [| exact Hall].
    vm_compute in Hrep; inversion Hrep; reflexivity.
  - apply (proj2 (electric_has_no_ECU bmw_3_series bmw_performance
                    some_time Stage_1_ECU_Remap)).
    simpl; discriminate.
Defined.

(** ** An empty goal list (C9) *)

(** C9.  With an empty list of primary goals the engine raises nothing:
    it returns the complete report, with no recommendation, the total
    cost min 0, max 0 in "USD", empty matrix and summaries, the fixed
    disclaimer and the time stamp. *)
Theorem empty_goals_give_empty_report car prefs now :
  primary_goals prefs = [] ->
  generate_recommendations car prefs now = Ok (empty_report car prefs now).
Proof.
  intros Hg; unfold generate_recommendations, collect_recommendations.
  destruct (experience_filters_defined (experience_level prefs)) as [f Hf].
  rewrite Hf, Hg; reflexivity.
Qed.

Lemma empty_goals_give_empty_report_witness :
  generate_recommendations bmw_3_series
    {| primary_goals := []; budget_range := PREMIUM;
       experience_level := ADVANCED; max_budget := None |} some_time
  = Ok (empty_report bmw_3_series
          {| primary_goals := []; budget_range := PREMIUM;
             experience_level := ADVANCED; max_budget := None |} some_time).
Proof.
  apply (empty_goals_give_empty_report bmw_3_series
           {| primary_goals := []; budget_range := PREMIUM;
              experience_level := ADVANCED; max_budget := None |} some_time).
  reflexivity.
Defined.

(** ** The third scenario (C2) *)

(** C2, as stated, fails: for the request
    {goals = [daily_comfort, fuel_economy], budget, beginner,
    max_budget = 2000} on the Toyota Camry of the API test the report's
    [total_estimated_cost] has max 3500, which is not at most 2000. *)
Lemma toyota_beginner_total_max_exceeds_cap :
  exists rep,
    generate_recommendations toyota_camry toyota_beginner some_time = Ok rep
    /\ total_max (total_estimated_cost rep) = 3500%float
    /\ PrimFloat.leb (total_max (total_estimated_cost rep)) 2000 = false.
Proof.
  eexists; split; [reflexivity |]; split; vm_compute; reflexivity.
Qed.

(** C2, amended.  For that request and any vehicle the engine returns a
    report with four recommendations, each of safety level low or medium;
    its [total_estimated_cost] is min 1000, max 3500 in "USD", so its
    min, not its max, is at most 2000.  "Lightweight Wheels" and
    "Performance Air Filter" are accepted at their minimum cost, and the
    total sums the maximum costs. *)
Theorem toyota_beginner_report car now :
  exists rep,
    generate_recommendations car toyota_beginner now = Ok rep
    /\ map name (recommendations rep)
       = ["Cold Air Intake System"; "Lowering Springs";
          "Lightweight Wheels"; "Performance Air Filter"]
    /\ Forall (fun r => safety_level r = LOW \/ safety_level r = MEDIUM)
              (recommendations rep)
    /\ total_estimated_cost rep
       = {| total_min := 1000; total_max := 3500; currency := "USD" |}
    /\ PrimFloat.leb (total_min (total_estimated_cost rep)) 2000 = true.
Proof.
  destruct (generate_recommendations_total car toyota_beginner now)
    as [rep Hrep].
  exists rep; split; [exact Hrep |].
  destruct (generate_recommendations_inv _ _ _ _ Hrep)
    as [wl [Hwl [Hrecs Htot]]].
  rewrite Htot, Hrecs; clear Hrep Htot Hrecs rep.
  destruct (collect_recommendations_eq _ _ _ Hwl) as [f [Hf ->]]; clear Hwl.
  injection Hf as <-.
  destruct car as [mk md yr e mods].
  destruct e; (split; [vm_compute; reflexivity |]); split.
  1,3,5,7: (apply Forall_forall; intros r Hr; vm_compute in Hr;
    repeat (destruct Hr as [<- | Hr]; [simpl; auto |]); contradiction).
  all: (split; vm_compute; reflexivity).
Qed.

(** On the lists the engine sorts, descending order and stability leave
    one result only: whatever stable algorithm [sorted] runs, it returns
    [sorted_by_priority]. *)
Corollary sorted_is_determined car prefs f l' :
  Permutation l' (_deduplicate_recommendations (working_list car prefs f)) ->
  StronglySorted score_ge l' ->
  (forall r,
      In r (_deduplicate_recommendations (working_list car prefs f)) ->
      filter (same_score r) l'
      = filter (same_score r)
               (_deduplicate_recommendations (working_list car prefs f))) ->
  l' = sorted_by_priority
         (_deduplicate_recommendations (working_list car prefs f)).
Proof.
  apply (sorted_by_priority_unique score_values);
    auto using score_values_total, score_values_trans, score_values_eq,
               score_values_antisym.
  rewrite deduplicate_recommendations_eq.
  apply (Subseq_Forall _ _ _ (spec_dedup_Subseq [] _)), working_list_scores.
Qed.

(** ** Greedy selection within the budget (C4) *)

Lemma resolve_max_budget_ge0 prefs :
  max_budget_ge0 prefs -> PrimFloat.leb 0 (resolve_max_budget prefs) = true.
Proof.
  unfold max_budget_ge0; rewrite resolve_max_budget_cases.
  destruct (max_budget prefs) as [b |].
  - intros Hb; destruct (PrimFloat.eqb b 0); [| exact Hb].
    destruct (budget_range prefs); reflexivity.
  - intros _; destruct (budget_range prefs); reflexivity.
Qed.

(** C4.  On every request the engine returns a report whose
    recommendations are the first ten, at most, of the candidates accepted
    by one left-to-right pass over the sorted deduplicated list, the spent
    total starting at 0: accepted at cost max when that fits, else at cost
    min when that fits, else skipped.  So there are at most ten, in
    acceptance order, and the running sum of the accepted amounts is
    within the resolved budget after each of them; before the first one it
    is 0, within any budget the field constraint [ge=0] admits. *)
Theorem budget_selection_is_greedy car prefs now :
  exists wl rep,
    collect_recommendations car prefs = Ok wl
    /\ generate_recommendations car prefs now = Ok rep
    /\ recommendations rep
       = map fst (firstn 10 (spec_accepted wl (resolve_max_budget prefs)))
    /\ length (recommendations rep) <= 10
    /\ Forall
         (fun k =>
            PrimFloat.leb
              (py_sum (map snd
                 (firstn k (spec_accepted wl (resolve_max_budget prefs)))))
              (resolve_max_budget prefs) = true)
         (seq 1 (length (recommendations rep)))
    /\ (max_budget_ge0 prefs ->
        PrimFloat.leb (py_sum []) (resolve_max_budget prefs) = true).
Proof.
  destruct (generate_recommendations_total car prefs now) as [rep Hrep].
  destruct (generate_recommendations_inv _ _ _ _ Hrep) as [wl [Hwl [Hrecs _]]].
  exists wl, rep; split; [exact Hwl |]; split; [exact Hrep |].
  assert (E : recommendations rep
              = map fst (firstn 10 (spec_accepted wl (resolve_max_budget prefs)))).
  { rewrite Hrecs; unfold select_recommendations, spec_accepted.
    apply filter_by_budget_eq. }
  split; [exact E |].
  assert (L : length (recommendations rep)
              <= length (spec_accepted wl (resolve_max_budget prefs))).
  { rewrite E, length_map, length_firstn; apply Nat.le_min_r. }
  split; [rewrite E, length_map, length_firstn; apply Nat.le_min_l |].
  split; [| apply resolve_max_budget_ge0].
  apply Forall_forall; intros k Hk; apply in_seq in Hk.
  unfold py_sum, spec_accepted; apply spec_greedy_pass_within.
  fold (spec_accepted wl (resolve_max_budget prefs)); lia.
Qed.

Lemma budget_selection_is_greedy_witness :
  exists wl rep,
    collect_recommendations toyota_camry toyota_beginner = Ok wl
    /\ generate_recommendations toyota_camry toyota_beginner some_time = Ok rep
    /\ map (fun a => (name (fst a), snd a)) (spec_accepted wl 2000)
       = [("Cold Air Intake System", 500%float); ("Lowering Springs", 800%float);
          ("Lightweight Wheels", 600%float);
          ("Performance Air Filter", 50%float)]
    /\ recommendations rep = map fst (firstn 10 (spec_accepted wl 2000))
    /\ Forall
         (fun k =>
            PrimFloat.leb (py_sum (map snd (firstn k (spec_accepted wl 2000))))
                          2000 = true)
         [1; 2; 3; 4]
    /\ PrimFloat.leb (py_sum []) 2000 = true.
Proof.
  destruct (budget_selection_is_greedy toyota_camry toyota_beginner some_time)
    as [wl [rep [Hwl [Hrep [E [_ [F Z]]]]]]].
  exists wl, rep; split; [exact Hwl |]; split; [exact Hrep |].
  assert (Hlen : length (recommendations rep) = 4)
    by (vm_compute in Hrep; injection Hrep as <-; reflexivity).
  rewrite Hlen in F.
  split; [| split; [exact E | split; [exact F | apply Z; reflexivity]]].
  destruct (collect_recommendations_eq _ _ _ Hwl) as [f [Hf ->]].
  injection Hf as <-; vm_compute; reflexivity.
Defined.

(** ** No duplicate in a report (C5) *)

Lemma NoDup_map_inj {A B} (f : A -> B) (l : list A) x y :
  NoDup (map f l) -> In x l -> In y l -> f x = f y -> x = y.
Proof.
  induction l as [| a l IH]; simpl; [intros _ [] |].
  intros ND Hx Hy E; inversion ND as [| ? ? Hnot ND']; subst.
  destruct Hx as [-> | Hx], Hy as [-> | Hy].
  - reflexivity.
  - exfalso; apply Hnot; rewrite E; apply in_map; assumption.
  - exfalso; apply Hnot; rewrite <- E; apply in_map; assumption.
  - apply IH; assumption.
Qed.

Lemma first_with_key_self (l : list TuningRecommendation) r :
  NoDup (map rec_key l) -> In r l -> first_with_key r l = Some r.
Proof.
  intros ND Hr; unfold first_with_key.
  destruct (find (fun x => key_eqb (rec_key r) (rec_key x)) l) as [x |] eqn:F.
  - apply find_some in F; destruct F as [Hx K]; apply key_eqb_eq in K.
    f_equal; apply (NoDup_map_inj rec_key l); auto.
  - apply (find_none _ _ F) in Hr; rewrite key_eqb_refl in Hr; discriminate.
Qed.

Lemma select_In_dedup wl mb r :
  In r (select_recommendations wl mb) -> In r (_deduplicate_recommendations wl).
Proof.
  intros H; apply (Subseq_In _ _ (select_Subseq_sorted wl mb)) in H.
  apply (Permutation_in _ (sorted_by_priority_Permutation _)), H.
Qed.

Lemma select_NoDup wl mb :
  NoDup (map rec_key (select_recommendations wl mb)).
Proof.
  apply (Subseq_NoDup _ _ (Subseq_map rec_key _ _ (select_Subseq_sorted wl mb))).
  apply (Permutation_NoDup
           (Permutation_map rec_key
              (Permutation_sym (sorted_by_priority_Permutation _)))).
  rewrite deduplicate_recommendations_eq; apply spec_dedup_NoDup.
Qed.

Lemma same_pair_iff r x : same_pair r x = true <-> rec_key x = rec_key r.
Proof.
  unfold same_pair, rec_key.
  rewrite andb_true_iff, TuningCategory_eqb_eq, String.eqb_eq.
  split; [intros [-> ->]; reflexivity | intros E; inversion E; auto].
Qed.

Lemma same_pair_seen pre seen r :
  (forall k, In k seen <-> In k (map rec_key pre)) ->
  existsb (same_pair r) pre = set_mem (rec_key r) seen.
Proof.
  intros E; apply Bool.eq_iff_eq_true.
  rewrite set_mem_In, E, existsb_exists, in_map_iff.
  split; intros [x [H1 H2]]; exists x.
  - apply same_pair_iff in H2; auto.
  - split; [exact H2 | apply same_pair_iff, H1].
Qed.

Lemma firstn_prefix {A} (pre l : list A) : firstn (length pre) (pre ++ l) = pre.
Proof.
  rewrite firstn_app, Nat.sub_diag, firstn_all; simpl.
  apply app_nil_r.
Qed.

(** The loop with its set of seen keys keeps the first occurrences, also
    when it starts after a prefix whose keys are the seen ones. *)
Lemma spec_dedup_positions (l : list TuningRecommendation) :
  forall pre seen,
    (forall k, In k seen <-> In k (map rec_key pre)) ->
    spec_dedup seen l
    = map snd
        (filter (fun ir => negb (existsb (same_pair (snd ir))
                                         (firstn (fst ir) (pre ++ l))))
                (combine (seq (length pre) (length l)) l)).
Proof.
  induction l as [| r rest IH]; intros pre seen E; [reflexivity |].
  simpl; rewrite firstn_prefix, (same_pair_seen pre seen r E).
  assert (A : pre ++ r :: rest = (pre ++ [r]) ++ rest)
    by (rewrite <- app_assoc; reflexivity).
  assert (L : S (length pre) = length (pre ++ [r]))
    by (rewrite length_app; simpl; lia).
  rewrite A, L.
  destruct (set_mem (rec_key r) seen) eqn:M; simpl.
  - apply IH; intros k; rewrite E, map_app, in_app_iff; simpl.
    apply set_mem_In in M; apply E in M.
    split; [auto | intros [H | [<- | []]]; assumption].
  - f_equal; apply IH; intros k; rewrite map_app, in_app_iff; simpl.
    rewrite E; tauto.
Qed.

Lemma deduplicate_first_occurrences (l : list TuningRecommendation) :
  _deduplicate_recommendations l = spec_first_occurrences l.
Proof.
  rewrite deduplicate_recommendations_eq; unfold spec_first_occurrences.
  apply (spec_dedup_positions l [] []); intros k; simpl; tauto.
Qed.

Lemma combine_seq_nth {A} (l : list A) a i x :
  In (i, x) (combine (seq a (length l)) l) ->
  a <= i /\ nth_error l (i - a) = Some x.
Proof.
  revert a; induction l as [| y l IH]; intros a; simpl; [intros [] |].
  intros [E | H].
  - inversion E; subst; rewrite Nat.sub_diag; auto.
  - apply IH in H; destruct H as [Hle Hn]; split; [lia |].
    replace (i - a) with (S (i - S a)) by lia; exact Hn.
Qed.

Lemma first_occurrences_position l r :
  In r (spec_first_occurrences l) ->
  exists i,
    nth_error l i = Some r /\ existsb (same_pair r) (firstn i l) = false.
Proof.
  unfold spec_first_occurrences; rewrite in_map_iff.
  intros [[i x] [E H]]; simpl in E; subst x.
  apply filter_In in H; destruct H as [H T]; simpl in T.
  apply combine_seq_nth in H; destruct H as [_ H].
  rewrite Nat.sub_0_r in H.
  exists i; split; [exact H | apply negb_true_iff, T].
Qed.

(** C5.  On every request the engine returns a report in which no two
    recommendations have the same (category, name).  On any list
    deduplication returns exactly the elements whose (category, name) does
    not occur at an earlier position, in the order of the list: of the
    instances of a pair it keeps the first, whatever the others hold, and
    the order is the first-seen one.  So the deduplicated working list has
    no repeated pair and is the working list with elements left out; and
    every recommendation of the report stands in the working list at a
    position before which its pair does not occur: it is the instance
    first generated, with the score adjusted then. *)
Theorem report_has_no_duplicate car prefs now :
  exists wl rep,
    collect_recommendations car prefs = Ok wl
    /\ generate_recommendations car prefs now = Ok rep
    /\ NoDup (map (fun r => (category r, name r)) (recommendations rep))
    /\ (forall l, _deduplicate_recommendations l = spec_first_occurrences l)
    /\ NoDup (map (fun r => (category r, name r))
                  (_deduplicate_recommendations wl))
    /\ Subseq (_deduplicate_recommendations wl) wl
    /\ Forall
         (fun r =>
            exists i,
              nth_error wl i = Some r
              /\ existsb (same_pair r) (firstn i wl) = false)
         (recommendations rep)
    /\ Forall (fun r => first_with_key r (_deduplicate_recommendations wl)
                        = first_with_key r wl) wl
    /\ Forall (fun r => first_with_key r wl = Some r)
              (_deduplicate_recommendations wl)
    /\ Forall (fun r => first_with_key r wl = Some r) (recommendations rep).
Proof.
  destruct (generate_recommendations_total car prefs now) as [rep Hrep].
  destruct (generate_recommendations_inv _ _ _ _ Hrep) as [wl [Hwl [Hrecs _]]].
  exists wl, rep; split; [exact Hwl |]; split; [exact Hrep |].
  assert (ND : NoDup (map rec_key (_deduplicate_recommendations wl)))
    by (rewrite deduplicate_recommendations_eq; apply spec_dedup_NoDup).
  assert (First : forall r, first_with_key r (_deduplicate_recommendations wl)
                            = first_with_key r wl).
  { intros r; rewrite deduplicate_recommendations_eq.
    apply spec_dedup_first; intros []. }
  assert (Kept : Forall (fun r => first_with_key r wl = Some r)
                        (_deduplicate_recommendations wl)).
  { apply Forall_forall; intros r Hr; rewrite <- First.
    apply first_with_key_self; assumption. }
  split; [rewrite Hrecs; apply select_NoDup |].
  split; [exact deduplicate_first_occurrences |].
  split; [exact ND |].
  split; [rewrite deduplicate_recommendations_eq; apply spec_dedup_Subseq |].
  split.
  { apply Forall_forall; intros r Hr; apply first_occurrences_position.
    rewrite <- deduplicate_first_occurrences.
    rewrite Hrecs in Hr; apply (select_In_dedup _ _ _ Hr). }
  split; [apply Forall_forall; intros r _; apply First |].
  split; [exact Kept |].
  rewrite Forall_forall in *; intros r Hr; apply Kept.
  rewrite Hrecs in Hr; apply (select_In_dedup _ _ _ Hr).
Qed.

(** Of two instances of a pair that differ, here in the score, the first
    is the one kept, and it stays where it stood. *)
Example deduplicate_keeps_first_variant :
  let a := recommendation_of TIRES_WHEELS Lightweight_Wheels in
  let b := recommendation_of SUSPENSION Lowering_Springs in
  let a' := set_priority_score a 1 in
  _deduplicate_recommendations [a; b; a'] = [a; b]
  /\ _deduplicate_recommendations [a'; b; a] = [a'; b]
  /\ _deduplicate_recommendations [b; a'; a; b] = [b; a'].
Proof. repeat split; vm_compute; reflexivity. Qed.

(** The working list of the third scenario does repeat a key: "Lightweight
    Wheels" is generated under both goals, and kept once. *)
Example toyota_beginner_duplicates :
  exists wl,
    collect_recommendations toyota_camry toyota_beginner = Ok wl
    /\ map name wl
       = ["Lowering Springs"; "Lightweight Wheels"; "Cold Air Intake System";
          "Performance Air Filter"; "Lightweight Wheels"]
    /\ map name (_deduplicate_recommendations wl)
       = ["Lowering Springs"; "Lightweight Wheels"; "Cold Air Intake System";
          "Performance Air Filter"].
Proof.
  eexists; split; [reflexivity |]; split; vm_compute; reflexivity.
Qed.

(** ** Order of the report (C6) *)

(** C6.  On every request the engine returns a report whose
    recommendations are in descending order of priority score, not
    strictly: each scores at least as much as every later one.  The sort is
    stable: the sorted list is a permutation of the deduplicated list in
    which the recommendations of any one score stand in the order they had
    before; the report is the sorted list with elements left out, so equal
    scores keep that order in the report too. *)
Theorem report_is_sorted_by_priority car prefs now :
  exists wl rep,
    collect_recommendations car prefs = Ok wl
    /\ generate_recommendations car prefs now = Ok rep
    /\ StronglySorted score_ge (recommendations rep)
    /\ StronglySorted score_ge
         (sorted_by_priority (_deduplicate_recommendations wl))
    /\ Permutation (sorted_by_priority (_deduplicate_recommendations wl))
                   (_deduplicate_recommendations wl)
    /\ Forall
         (fun r =>
            filter (same_score r)
                   (sorted_by_priority (_deduplicate_recommendations wl))
            = filter (same_score r) (_deduplicate_recommendations wl))
         (_deduplicate_recommendations wl)
    /\ Subseq (recommendations rep)
              (sorted_by_priority (_deduplicate_recommendations wl))
    /\ Forall
         (fun r =>
            Subseq (filter (same_score r) (recommendations rep))
                   (filter (same_score r) (_deduplicate_recommendations wl)))
         (recommendations rep).
Proof.
  destruct (generate_recommendations_total car prefs now) as [rep Hrep].
  destruct (generate_recommendations_inv _ _ _ _ Hrep) as [wl [Hwl [Hrecs _]]].
  exists wl, rep; split; [exact Hwl |]; split; [exact Hrep |].
  destruct (collect_recommendations_eq _ _ _ Hwl) as [f [_ Ewl]].
  assert (Hin : scores_in score_values (_deduplicate_recommendations wl)).
  { rewrite deduplicate_recommendations_eq.
    apply (Subseq_Forall _ _ _ (spec_dedup_Subseq [] wl)).
    rewrite Ewl; apply working_list_scores. }
  assert (Sorted : StronglySorted score_ge
                     (sorted_by_priority (_deduplicate_recommendations wl)))
    by (apply (sorted_by_priority_sorted score_values);
        auto using score_values_total, score_values_trans).
  assert (Sub : Subseq (recommendations rep)
                       (sorted_by_priority (_deduplicate_recommendations wl)))
    by (rewrite Hrecs; apply select_Subseq_sorted).
  assert (Stable : forall r,
             In r (_deduplicate_recommendations wl) ->
             filter (same_score r)
                    (sorted_by_priority (_deduplicate_recommendations wl))
             = filter (same_score r) (_deduplicate_recommendations wl)).
  { intros r Hr.
    apply (sorted_by_priority_stable score_values score_values_eq);
      [| exact Hin].
    unfold scores_in in Hin; rewrite Forall_forall in Hin; apply Hin, Hr. }
  split; [apply (Subseq_StronglySorted _ _ _ Sub Sorted) |].
  split; [exact Sorted |].
  split; [apply sorted_by_priority_Permutation |].
  split; [apply Forall_forall; exact Stable |].
  split; [exact Sub |].
  apply Forall_forall; intros r Hr.
  rewrite <- Stable; [apply Subseq_filter, Sub |].
  rewrite Hrecs in Hr; apply (select_In_dedup _ _ _ Hr).
Qed.

(** In the first scenario the two recommendations tie at 10.0 and keep
    the order of generation. *)
Example bmw_performance_tie :
  exists rep,
    generate_recommendations bmw_3_series bmw_performance some_time = Ok rep
    /\ map (fun r => (name r, priority_score r)) (recommendations rep)
       = [("Stage 2 ECU Remap", 10%float); ("Big Brake Kit", 10%float)].
Proof. eexists; split; [reflexivity | vm_compute; reflexivity]. Qed.

(** ** The adjusted score of a candidate (C8) *)

(** C8.  Every candidate of the working list is the copy of a catalogue
    option whose priority score is
    min(10.0, base * 1.2 * (0.7 if beginner and high, else 1)
                   * (1.1 if tier budget and cost max < 1000, else 1));
    the factor 1.2 is always there, since the adjusting goal is one of the
    primary goals: for such a goal [_adjust_priority_score] returns this
    value on every option of the catalogue. *)
Theorem candidates_have_spec_score car prefs :
  exists wl,
    collect_recommendations car prefs = Ok wl
    /\ Forall
         (fun r =>
            exists c o,
              In o (get_tuning_options_for_category c)
              /\ r = set_priority_score (recommendation_of c o)
                       (spec_adjusted_score o (experience_level prefs)
                                            (budget_range prefs)))
         wl
    /\ (forall goal c o,
           In goal (primary_goals prefs) ->
           In o (get_tuning_options_for_category c) ->
           existsb (DrivingGoal_eqb goal) (primary_goals prefs) = true
           /\ _adjust_priority_score (recommendation_of c o) goal prefs
              = spec_adjusted_score o (experience_level prefs)
                                    (budget_range prefs)).
Proof.
  destruct (collect_recommendations_total car prefs) as [wl Hwl].
  exists wl; split; [exact Hwl |].
  destruct (collect_recommendations_eq _ _ _ Hwl) as [f [_ ->]].
  split; [apply working_list_spec |].
  intros goal c o Hg Ho; split;
    [apply goal_in_primary_goals, Hg | apply adjust_priority_score_spec; assumption].
Qed.

Lemma candidates_have_spec_score_witness :
  exists wl,
    collect_recommendations toyota_camry toyota_beginner = Ok wl
    /\ map priority_score wl
       = [spec_adjusted_score Lowering_Springs BEGINNER BUDGET;
          spec_adjusted_score Lightweight_Wheels BEGINNER BUDGET;
          spec_adjusted_score Cold_Air_Intake_System BEGINNER BUDGET;
          spec_adjusted_score Performance_Air_Filter BEGINNER BUDGET;
          spec_adjusted_score Lightweight_Wheels BEGINNER BUDGET]
    /\ _adjust_priority_score (recommendation_of SUSPENSION Lowering_Springs)
                              DAILY_COMFORT toyota_beginner
       = spec_adjusted_score Lowering_Springs BEGINNER BUDGET
    /\ spec_adjusted_score Lowering_Springs BEGINNER BUDGET
       = (6.0 * 1.2 * 1 * 1.1)%float.
Proof.
  destruct (candidates_have_spec_score toyota_camry toyota_beginner)
    as [wl [Hwl [_ Hadj]]].
  exists wl; split; [exact Hwl |].
  split; [| split; [| vm_compute; reflexivity]].
  - destruct (collect_recommendations_eq _ _ _ Hwl) as [f [Hf ->]].
    injection Hf as <-; vm_compute; reflexivity.
  - apply (Hadj DAILY_COMFORT SUSPENSION Lowering_Springs).
    + simpl; auto.
    + cbv [get_tuning_options_for_category get dict_find tuning_options
           TuningCategory_eqb In]; auto.
Defined.

(** * Further properties of the engine *)

(** ** Where a recommendation comes from *)

Lemma accepts_within_cap car mb f o :
  accepts car mb f o = true ->
  float_gt (cost_max (o_cost_range o)) mb = false.
Proof.
  unfold accepts; intros H.
  apply andb_true_iff in H; destruct H as [H _].
  apply andb_true_iff in H; destruct H as [_ H].
  apply negb_true_iff in H; exact H.
Qed.


Lemma passes_avoid_high o f :
  avoid_high_risk_mods f = true ->
  _passes_experience_filters o f = true ->
  o_safety_level o = LOW \/ o_safety_level o = MEDIUM.
Proof.
  unfold _passes_experience_filters; intros ->.
  destruct (safety_ceiling_rejects _ _); [discriminate |].
  destruct (float_gt _ _); [discriminate |].
  destruct (o_safety_level o); simpl; intros H; auto; discriminate.
Qed.

(** Like [working_list_In], with the category of the candidate too. *)
Lemma working_list_origin car prefs f r :
  In r (working_list car prefs f) ->
  exists goal c o,
    In goal (primary_goals prefs)
    /\ In c (get DrivingGoal_eqb goal_priorities goal [])
    /\ In o (get_tuning_options_for_category c)
    /\ accepts car (resolve_max_budget prefs) f o = true
    /\ r = set_priority_score (recommendation_of c o)
             (spec_adjusted_score o (experience_level prefs)
                                  (budget_range prefs)).
Proof.
  unfold working_list, goal_candidates; rewrite in_flat_map.
  intros [goal [Hg H]]; rewrite in_flat_map in H.
  destruct H as [c [Hc H]]; rewrite in_map_iff in H.
  destruct H as [o [<- Ho]]; apply filter_In in Ho; destruct Ho as [Ho Ha].
  exists goal, c, o; repeat (split; [assumption |]).
  unfold adjusted; rewrite (adjust_priority_score_spec _ _ _ _ Hg Ho).
  reflexivity.
Qed.

(** The report of a request, with the working list and the filter bundle
    it was built from. *)
Lemma generate_recommendations_run car prefs now :
  exists f rep,
    subscript ExperienceLevel_eqb experience_filters (experience_level prefs)
    = Ok f
    /\ generate_recommendations car prefs now = Ok rep
    /\ recommendations rep
       = select_recommendations (working_list car prefs f)
                                (resolve_max_budget prefs)
    /\ total_estimated_cost rep = _calculate_total_cost (recommendations rep)
    /\ compatibility_matrix rep
       = _generate_compatibility_matrix (recommendations rep)
    /\ safety_summary rep = _generate_safety_summary (recommendations rep)
    /\ legal_summary rep = _generate_legal_summary (recommendations rep).
Proof.
  destruct (experience_filters_defined (experience_level prefs)) as [f Hf].
  exists f; unfold generate_recommendations, collect_recommendations.
  rewrite Hf; simpl; rewrite goals_loop_eq; simpl.
  eexists; split; [reflexivity |]; split; [reflexivity |].
  simpl; repeat split; reflexivity.
Qed.

(** X1.  No recommendation of a report has a maximum cost greater than the
    resolved spending cap: an option whose [cost_range["max"]] exceeds the
    cap is never turned into a candidate. *)
Theorem no_recommendation_above_cap car prefs now :
  exists rep,
    generate_recommendations car prefs now = Ok rep
    /\ Forall
         (fun r =>
            float_gt (cost_max (cost_range r)) (resolve_max_budget prefs)
            = false)
         (recommendations rep).
Proof.
  destruct (generate_recommendations_run car prefs now)
    as [f [rep [_ [Hrep [Hrecs _]]]]].
  exists rep; split; [exact Hrep |]; rewrite Hrecs.
  apply select_Forall, Forall_forall; intros r Hr.
  destruct (working_list_origin _ _ _ _ Hr) as [g [c [o [_ [_ [_ [Ha ->]]]]]]].
  simpl; apply (accepts_within_cap _ _ _ _ Ha).
Qed.

(** X2.  A beginner is never recommended a high-risk modification: the
    [avoid_high_risk_mods] switch of the beginner bundle rejects every
    option of safety level high, so every recommendation of the report is
    low or medium. *)
Theorem beginner_gets_no_high_risk car prefs now :
  experience_level prefs = BEGINNER ->
  exists rep,
    generate_recommendations car prefs now = Ok rep
    /\ Forall (fun r => safety_level r = LOW \/ safety_level r = MEDIUM)
              (recommendations rep).
Proof.
  intros Hlvl.
  destruct (generate_recommendations_run car prefs now)
    as [f [rep [Hf [Hrep [Hrecs _]]]]].
  exists rep; split; [exact Hrep |]; rewrite Hrecs.
  rewrite Hlvl in Hf; injection Hf as <-.
  apply select_Forall, Forall_forall; intros r Hr.
  destruct (working_list_origin _ _ _ _ Hr) as [g [c [o [_ [_ [_ [Ha ->]]]]]]].
  simpl; apply accepts_passes in Ha.
  revert Ha; apply passes_avoid_high; reflexivity.
Qed.

Lemma beginner_gets_no_high_risk_witness :
  exists rep,
    generate_recommendations toyota_camry toyota_beginner some_time = Ok rep
    /\ map safety_level (recommendations rep) = [LOW; MEDIUM; LOW; LOW]
    /\ Forall (fun r => safety_level r = LOW \/ safety_level r = MEDIUM)
              (recommendations rep).
Proof.
  destruct (beginner_gets_no_high_risk toyota_camry toyota_beginner some_time
              eq_refl) as [rep [Hrep Hall]].
  exists rep; split; [exact Hrep |]; split; [| exact Hall].
  vm_compute in Hrep; injection Hrep as <-; reflexivity.
Defined.


(** ** The score stays in range *)

Definition scores_in_range (S : list float) : bool :=
  forallb (fun s => PrimFloat.leb 0 s && PrimFloat.leb s 10) S.

Lemma score_values_in_range : scores_in_range score_values = true.
Proof. vm_compute; reflexivity. Qed.

(** X4.  The priority score of every recommendation of a report lies
    between 0 and 10, the bounds the field declares, although the engine
    assigns the adjusted score after the model was constructed. *)
Theorem priority_scores_stay_in_range car prefs now :
  exists rep,
    generate_recommendations car prefs now = Ok rep
    /\ Forall
         (fun r =>
            PrimFloat.leb 0 (priority_score r) = true
            /\ PrimFloat.leb (priority_score r) 10 = true)
         (recommendations rep).
Proof.
  destruct (generate_recommendations_run car prefs now)
    as [f [rep [_ [Hrep [Hrecs _]]]]].
  exists rep; split; [exact Hrep |]; rewrite Hrecs.
  apply select_Forall.
  apply (Forall_impl _ (P := fun r => In (priority_score r) score_values));
    [| apply working_list_scores].
  intros r Hr.
  pose proof score_values_in_range as R; unfold scores_in_range in R.
  rewrite forallb_forall in R; specialize (R _ Hr).
  apply andb_true_iff in R; exact R.
Qed.

(** ** Duplicates and deduplication *)

(** The options of the catalogue with the category each is filed under. *)
Definition filed_options : list (TuningCategory * TuningOption) :=
  flat_map (fun c => map (pair c) (get_tuning_options_for_category c))
           all_categories.

Fixpoint distinct_strings (l : list string) : bool :=
  match l with
  | [] => true
  | x :: l' => negb (existsb (String.eqb x) l') && distinct_strings l'
  end.

Lemma distinct_strings_NoDup l : distinct_strings l = true -> NoDup l.
Proof.
  induction l as [| x l IH]; simpl; intros H; constructor;
    apply andb_true_iff in H; destruct H as [Hx Hl]; [| apply IH, Hl].
  intros Hin; apply negb_true_iff in Hx.
  assert (E : existsb (String.eqb x) l = true)
    by (apply existsb_exists; exists x; split;
        [exact Hin | apply String.eqb_refl]).
  congruence.
Qed.

(** No two options of the catalogue have the same name, across categories. *)
Lemma catalogue_names_distinct :
  NoDup (map (fun co => o_name (snd co)) filed_options).
Proof. apply distinct_strings_NoDup; vm_compute; reflexivity. Qed.

Lemma option_is_filed c o :
  In o (get_tuning_options_for_category c) -> In (c, o) filed_options.
Proof.
  intros H; unfold filed_options; apply in_flat_map; exists c; split;
    [destruct c; simpl; tauto | apply in_map, H].
Qed.

Lemma same_name_same_option c1 o1 c2 o2 :
  In o1 (get_tuning_options_for_category c1) ->
  In o2 (get_tuning_options_for_category c2) ->
  o_name o1 = o_name o2 -> c1 = c2 /\ o1 = o2.
Proof.
  intros H1 H2 E.
  assert (P : (c1, o1) = (c2, o2)).
  { apply (NoDup_map_inj (fun co => o_name (snd co)) filed_options);
      auto using catalogue_names_distinct, option_is_filed. }
  inversion P; auto.
Qed.

Lemma working_list_same_name car prefs f r1 r2 :
  In r1 (working_list car prefs f) -> In r2 (working_list car prefs f) ->
  name r1 = name r2 -> r1 = r2.
Proof.
  intros H1 H2 E.
  destruct (working_list_origin _ _ _ _ H1) as [g1 [c1 [o1 [_ [_ [Ho1 [_ ->]]]]]]].
  destruct (working_list_origin _ _ _ _ H2) as [g2 [c2 [o2 [_ [_ [Ho2 [_ ->]]]]]]].
  simpl in E; destruct (same_name_same_option _ _ _ _ Ho1 Ho2 E) as [-> ->].
  reflexivity.
Qed.

(** X5.  Two candidates of the working list with the same
    (category, name) are the same record, score included: the adjusted
    score does not depend on the goal that produced the candidate, so
    deduplication never discards a variant that differs from the one it
    keeps. *)
Theorem duplicates_are_identical car prefs :
  exists wl,
    collect_recommendations car prefs = Ok wl
    /\ forall r1 r2,
         In r1 wl -> In r2 wl -> rec_key r1 = rec_key r2 -> r1 = r2.
Proof.
  destruct (collect_recommendations_total car prefs) as [wl Hwl].
  exists wl; split; [exact Hwl |].
  destruct (collect_recommendations_eq _ _ _ Hwl) as [f [_ ->]].
  intros r1 r2 H1 H2 E; apply (working_list_same_name car prefs f); auto.
  unfold rec_key in E; inversion E; reflexivity.
Qed.

Lemma duplicates_are_identical_witness :
  exists wl r1 r2,
    collect_recommendations toyota_camry toyota_beginner = Ok wl
    /\ nth_error wl 1 = Some r1
    /\ nth_error wl 4 = Some r2
    /\ name r1 = "Lightweight Wheels"
    /\ r1 = r2.
Proof.
  destruct (duplicates_are_identical toyota_camry toyota_beginner)
    as [wl [Hwl Hsame]].
  exists wl,
    (adjusted toyota_beginner DAILY_COMFORT TIRES_WHEELS Lightweight_Wheels),
    (adjusted toyota_beginner FUEL_ECONOMY TIRES_WHEELS Lightweight_Wheels).
  split; [exact Hwl |].
  assert (E1 : nth_error wl 1
               = Some (adjusted toyota_beginner DAILY_COMFORT TIRES_WHEELS
                                Lightweight_Wheels))
    by (vm_compute in Hwl; injection Hwl as <-; vm_compute; reflexivity).
  assert (E2 : nth_error wl 4
               = Some (adjusted toyota_beginner FUEL_ECONOMY TIRES_WHEELS
                                Lightweight_Wheels))
    by (vm_compute in Hwl; injection Hwl as <-; vm_compute; reflexivity).
  split; [exact E1 |]; split; [exact E2 |]; split; [reflexivity |].
  apply Hsame;
    [apply (nth_error_In _ _ E1) | apply (nth_error_In _ _ E2) | reflexivity].
Defined.

Lemma spec_dedup_unchanged seen (l : list TuningRecommendation) :
  (forall r, In r l -> ~ In (rec_key r) seen) ->
  NoDup (map rec_key l) -> spec_dedup seen l = l.
Proof.
  revert seen; induction l as [| x l IH]; intros seen Hfresh ND; simpl;
    [reflexivity |].
  inversion ND as [| ? ? Hx ND']; subst.
  assert (E : set_mem (rec_key x) seen = false)
    by (apply set_mem_false, Hfresh; left; reflexivity).
  rewrite E; f_equal; apply IH; [| exact ND'].
  intros r Hr [Heq | Hin].
  - apply Hx; rewrite Heq; apply in_map, Hr.
  - apply (Hfresh r); [right; exact Hr | exact Hin].
Qed.

(** X6.  Deduplication is idempotent: applied to its own result it
    changes nothing. *)
Theorem deduplicate_is_idempotent (l : list TuningRecommendation) :
  _deduplicate_recommendations (_deduplicate_recommendations l)
  = _deduplicate_recommendations l.
Proof.
  rewrite (deduplicate_recommendations_eq (_deduplicate_recommendations l)).
  apply spec_dedup_unchanged; [intros r _ [] |].
  rewrite deduplicate_recommendations_eq; apply spec_dedup_NoDup.
Qed.

(** ** The compatibility matrix *)

Lemma dict_find_setitem {V} (d : dict string V) k v n :
  dict_find String.eqb (setitem String.eqb d k v) n
  = if String.eqb n k then Some v else dict_find String.eqb d n.
Proof.
  induction d as [| [k' v'] d IH]; simpl; [reflexivity |].
  destruct (String.eqb k k') eqn:E; simpl.
  - apply String.eqb_eq in E; subst k'.
    destruct (String.eqb n k); reflexivity.
  - destruct (String.eqb n k') eqn:E'.
    + apply String.eqb_eq in E'; subst k'.
      rewrite String.eqb_sym, E; reflexivity.
    + exact IH.
Qed.

Lemma setitem_keys {V} (d : dict string V) k v :
  map fst (setitem String.eqb d k v)
  = if existsb (String.eqb k) (map fst d) then map fst d
    else map fst d ++ [k].
Proof.
  induction d as [| [k' v'] d IH]; simpl; [reflexivity |].
  destruct (String.eqb k k'); simpl; [reflexivity |].
  rewrite IH; destruct (existsb (String.eqb k) (map fst d)); reflexivity.
Qed.

Lemma setitem_new {V} (d : dict string V) k v :
  ~ In k (map fst d) -> setitem String.eqb d k v = d ++ [(k, v)].
Proof.
  induction d as [| [k' v'] d IH]; simpl; intros H; [reflexivity |].
  destruct (String.eqb k k') eqn:E.
  - apply String.eqb_eq in E; subst; exfalso; apply H; left; reflexivity.
  - rewrite IH; [reflexivity | intros Hin; apply H; right; exact Hin].
Qed.

(** The entry a recommendation writes. *)
Definition matrix_entry (rec : TuningRecommendation) : string * list string :=
  (name rec,
   get_compatible_modifications (TuningCategory_value (category rec))).

Definition matrix_step (matrix : dict string (list string))
    (rec : TuningRecommendation) : dict string (list string) :=
  setitem String.eqb matrix (name rec) (snd (matrix_entry rec)).

(** The last recommendation of the list with the given name. *)
Definition last_named (n : string) (recs : list TuningRecommendation)
  : option TuningRecommendation :=
  find (fun r => String.eqb n (name r)) (rev recs).

Lemma compatibility_matrix_snoc recs r :
  _generate_compatibility_matrix (recs ++ [r])
  = matrix_step (_generate_compatibility_matrix recs) r.
Proof.
  unfold _generate_compatibility_matrix; rewrite fold_left_app; reflexivity.
Qed.

Lemma existsb_eqb_In (k : string) (l : list string) :
  existsb (String.eqb k) l = true <-> In k l.
Proof.
  rewrite existsb_exists; split.
  - intros [x [Hx E]]; apply String.eqb_eq in E; subst; exact Hx.
  - intros H; exists k; split; [exact H | apply String.eqb_refl].
Qed.

Lemma setitem_keys_In {V} (d : dict string V) k v n :
  In n (map fst (setitem String.eqb d k v)) <-> In n (map fst d) \/ n = k.
Proof.
  rewrite setitem_keys.
  destruct (existsb (String.eqb k) (map fst d)) eqn:E.
  - apply existsb_eqb_In in E; split; [auto | intros [H | ->]; assumption].
  - rewrite in_app_iff; simpl; intuition (subst; auto).
Qed.

Lemma compatibility_matrix_keys recs n :
  In n (map fst (_generate_compatibility_matrix recs))
  <-> In n (map name recs).
Proof.
  induction recs as [| r recs IH] using rev_ind; [simpl; tauto |].
  rewrite compatibility_matrix_snoc; unfold matrix_step.
  rewrite setitem_keys_In, IH, map_app, in_app_iff; simpl.
  intuition (subst; auto).
Qed.

Lemma compatibility_matrix_NoDup recs :
  NoDup (map fst (_generate_compatibility_matrix recs)).
Proof.
  induction recs as [| r recs IH] using rev_ind; [constructor |].
  rewrite compatibility_matrix_snoc; unfold matrix_step.
  rewrite setitem_keys.
  destruct (existsb (String.eqb (name r))
                    (map fst (_generate_compatibility_matrix recs))) eqn:E;
    [exact IH |].
  apply NoDup_app; [exact IH | repeat constructor; intros [] |].
  intros x Hx [<- | []].
  apply existsb_eqb_In in Hx; congruence.
Qed.

(** X7.  In the matrix built from any list of recommendations no key is
    repeated, the keys are the names that occur in the list, and looking a
    name up gives the compatibility list of the category of the last
    recommendation with that name (nothing for a name that does not
    occur): a later recommendation of the same name overwrites the
    earlier entry. *)
Theorem compatibility_matrix_lookup (recs : list TuningRecommendation)
    (n : string) :
  dict_find String.eqb (_generate_compatibility_matrix recs) n
  = option_map (fun r => snd (matrix_entry r)) (last_named n recs)
  /\ NoDup (map fst (_generate_compatibility_matrix recs))
  /\ (In n (map fst (_generate_compatibility_matrix recs))
      <-> In n (map name recs)).
Proof.
  split; [| split;
            [apply compatibility_matrix_NoDup | apply compatibility_matrix_keys]].
  induction recs as [| r recs IH] using rev_ind; [reflexivity |].
  rewrite compatibility_matrix_snoc; unfold matrix_step.
  rewrite dict_find_setitem; unfold last_named.
  rewrite rev_unit; simpl.
  destruct (String.eqb n (name r)); [reflexivity | exact IH].
Qed.

Lemma compatibility_matrix_distinct recs :
  NoDup (map name recs) ->
  _generate_compatibility_matrix recs = map matrix_entry recs.
Proof.
  induction recs as [| r recs IH] using rev_ind; intros ND; [reflexivity |].
  rewrite map_app in ND; apply NoDup_remove_1 in ND as ND1.
  rewrite app_nil_r in ND1.
  rewrite compatibility_matrix_snoc, (IH ND1); unfold matrix_step.
  rewrite setitem_new, map_app; [reflexivity |].
  rewrite map_map; simpl.
  apply NoDup_remove_2 in ND; rewrite app_nil_r in ND; exact ND.
Qed.

Lemma select_names_NoDup car prefs f mb :
  NoDup (map name (select_recommendations (working_list car prefs f) mb)).
Proof.
  assert (K := select_NoDup (working_list car prefs f) mb).
  assert (I : forall r,
             In r (select_recommendations (working_list car prefs f) mb) ->
             In r (working_list car prefs f))
    by (intros r; apply select_In).
  induction (select_recommendations (working_list car prefs f) mb)
    as [| x l IH]; simpl; [constructor |].
  inversion K as [| ? ? Hx K']; subst; constructor.
  - rewrite in_map_iff; intros [y [E Hy]].
    apply Hx; rewrite in_map_iff; exists y; split; [| exact Hy].
    f_equal.
    apply (working_list_same_name car prefs f); auto.
    + apply I; right; exact Hy.
    + apply I; left; reflexivity.
  - apply IH; [exact K' | intros r Hr; apply I; right; exact Hr].
Qed.

(** X8.  In a report the compatibility matrix has exactly one entry per
    recommendation, in the order of the recommendations: its name with the
    compatibility list the knowledge base holds for its category.  No
    entry is overwritten, since no two recommendations of a report have
    the same name, and every category has its list in the knowledge
    base. *)
Theorem report_matrix_matches_recommendations car prefs now :
  exists rep,
    generate_recommendations car prefs now = Ok rep
    /\ NoDup (map name (recommendations rep))
    /\ compatibility_matrix rep = map matrix_entry (recommendations rep)
    /\ Forall
         (fun r =>
            dict_find String.eqb kb_compatibility_matrix
                      (TuningCategory_value (category r))
            = Some (snd (matrix_entry r)))
         (recommendations rep).
Proof.
  destruct (generate_recommendations_run car prefs now)
    as [f [rep [_ [Hrep [Hrecs [_ [Hm _]]]]]]].
  exists rep; split; [exact Hrep |].
  assert (ND : NoDup (map name (recommendations rep)))
    by (rewrite Hrecs; apply select_names_NoDup).
  split; [exact ND |].
  split; [rewrite Hm; apply compatibility_matrix_distinct, ND |].
  apply Forall_forall; intros r _.
  unfold matrix_entry, get_compatible_modifications, get; simpl.
  destruct (category r); reflexivity.
Qed.

(** ** The safety and legal summaries *)

Lemma list_of_set_In (l : list string) x : In x (list_of_set l) <-> In x l.
Proof.
  induction l as [| y l IH]; simpl; [tauto |].
  rewrite filter_In, IH; split.
  - intros [H | [H _]]; auto.
  - intros [H | H]; [auto |].
    destruct (String.eqb y x) eqn:E.
    + apply String.eqb_eq in E; auto.
    + right; split; [exact H | reflexivity].
Qed.

Lemma list_of_set_NoDup (l : list string) : NoDup (list_of_set l).
Proof.
  induction l as [| y l IH]; simpl; constructor.
  - rewrite filter_In; intros [_ H]; rewrite String.eqb_refl in H.
    discriminate.
  - apply NoDup_filter, IH.
Qed.

(** The warnings of the recommendations of one safety level, in order. *)
Definition warnings_of (level : SafetyLevel)
    (recs : list TuningRecommendation) : list string :=
  flat_map safety_warnings
    (filter (fun r => SafetyLevel_eqb (safety_level r) level) recs).

Lemma safety_fold recs acc :
  fold_left safety_step recs acc
  = {| high_risk := high_risk acc ++ warnings_of HIGH recs;
       medium_risk := medium_risk acc ++ warnings_of MEDIUM recs;
       low_risk := low_risk acc ++ warnings_of LOW recs |}.
Proof.
  revert acc; induction recs as [| r recs IH]; intros acc.
  - simpl; rewrite !app_nil_r; destruct acc; reflexivity.
  - simpl fold_left; rewrite IH; unfold safety_step, warnings_of; simpl.
    destruct (safety_level r); simpl; rewrite ?app_assoc; reflexivity.
Qed.

Lemma warnings_of_In level recs w :
  In w (warnings_of level recs)
  <-> exists r, In r recs /\ safety_level r = level /\ In w (safety_warnings r).
Proof.
  unfold warnings_of; rewrite in_flat_map; split.
  - intros [r [Hr Hw]]; apply filter_In in Hr; destruct Hr as [Hr E].
    exists r; repeat split; auto.
    destruct (safety_level r), level; simpl in E; congruence.
  - intros [r [Hr [E Hw]]]; exists r; split; [| exact Hw].
    apply filter_In; split; [exact Hr |].
    rewrite E; destruct level; reflexivity.
Qed.

(** X9.  The safety summary of any list of recommendations files a
    warning under the high, medium or low tier exactly when it is a
    warning of a recommendation of that safety level, and lists no warning
    twice within a tier. *)
Theorem safety_summary_tiers (recs : list TuningRecommendation) (w : string) :
  (In w (high_risk (_generate_safety_summary recs))
   <-> exists r,
         In r recs /\ safety_level r = HIGH /\ In w (safety_warnings r))
  /\ (In w (medium_risk (_generate_safety_summary recs))
      <-> exists r,
            In r recs /\ safety_level r = MEDIUM /\ In w (safety_warnings r))
  /\ (In w (low_risk (_generate_safety_summary recs))
      <-> exists r,
            In r recs /\ safety_level r = LOW /\ In w (safety_warnings r))
  /\ NoDup (high_risk (_generate_safety_summary recs))
  /\ NoDup (medium_risk (_generate_safety_summary recs))
  /\ NoDup (low_risk (_generate_safety_summary recs)).
Proof.
  unfold _generate_safety_summary; rewrite safety_fold; simpl.
  rewrite !list_of_set_In, !warnings_of_In.
  repeat split; try apply list_of_set_NoDup; auto.
Qed.

(** The lines of one kind of impact, in order. *)
Definition impact_lines (impact : TuningRecommendation -> string)
    (recs : list TuningRecommendation) : list string :=
  map (fun r => impact_line r (impact r))
      (filter (fun r => has_impact (impact r)) recs).

Lemma legal_fold recs acc :
  fold_left legal_step recs acc
  = {| warranty_impacts :=
         warranty_impacts acc ++ impact_lines warranty_impact recs;
       emissions_impacts :=
         emissions_impacts acc ++ impact_lines emissions_impact recs;
       insurance_impacts :=
         insurance_impacts acc ++ impact_lines insurance_impact recs;
       legal_considerations_all :=
         legal_considerations_all acc ++ flat_map legal_considerations recs |}.
Proof.
  revert acc; induction recs as [| r recs IH]; intros acc.
  - simpl; rewrite !app_nil_r; destruct acc; reflexivity.
  - simpl fold_left; rewrite IH; unfold legal_step, impact_lines; simpl.
    destruct (has_impact (warranty_impact r)),
             (has_impact (emissions_impact r)),
             (has_impact (insurance_impact r));
      simpl; rewrite <- ?app_assoc; reflexivity.
Qed.

Lemma impact_lines_In impact recs s :
  In s (impact_lines impact recs)
  <-> exists r,
        In r recs /\ impact r <> "No impact"
        /\ s = impact_line r (impact r).
Proof.
  unfold impact_lines, has_impact; rewrite in_map_iff; split.
  - intros [r [<- Hr]]; apply filter_In in Hr; destruct Hr as [Hr E].
    exists r; repeat split; auto.
    apply negb_true_iff, String.eqb_neq in E; exact E.
  - intros [r [Hr [E ->]]]; exists r; split; [reflexivity |].
    apply filter_In; split; [exact Hr |].
    apply negb_true_iff, String.eqb_neq; exact E.
Qed.

(** X10.  The legal summary of any list of recommendations holds the line
    "name: impact" of a recommendation under warranty, emissions or
    insurance exactly when that impact of the recommendation is not the
    text "No impact"; its legal considerations are exactly those of the
    recommendations; no list of the summary repeats a line. *)
Theorem legal_summary_lines (recs : list TuningRecommendation) (s : string) :
  (In s (warranty_impacts (_generate_legal_summary recs))
   <-> exists r,
         In r recs /\ warranty_impact r <> "No impact"
         /\ s = (name r ++ ": " ++ warranty_impact r)%string)
  /\ (In s (emissions_impacts (_generate_legal_summary recs))
      <-> exists r,
            In r recs /\ emissions_impact r <> "No impact"
            /\ s = (name r ++ ": " ++ emissions_impact r)%string)
  /\ (In s (insurance_impacts (_generate_legal_summary recs))
      <-> exists r,
            In r recs /\ insurance_impact r <> "No impact"
            /\ s = (name r ++ ": " ++ insurance_impact r)%string)
  /\ (In s (legal_considerations_all (_generate_legal_summary recs))
      <-> exists r, In r recs /\ In s (legal_considerations r))
  /\ NoDup (warranty_impacts (_generate_legal_summary recs))
  /\ NoDup (emissions_impacts (_generate_legal_summary recs))
  /\ NoDup (insurance_impacts (_generate_legal_summary recs))
  /\ NoDup (legal_considerations_all (_generate_legal_summary recs)).
Proof.
  unfold _generate_legal_summary; rewrite legal_fold; simpl.
  rewrite !list_of_set_In, !impact_lines_In, in_flat_map.
  repeat split; try apply list_of_set_NoDup; auto.
Qed.

(** ** A goal listed twice *)

(** The preferences with another list of goals. *)
Definition with_goals (prefs : UserPreferences) (goals : list DrivingGoal)
  : UserPreferences :=
  {| primary_goals := goals;
     budget_range := budget_range prefs;
     experience_level := experience_level prefs;
     max_budget := max_budget prefs |}.

(** The candidates of one goal, written without the list of goals. *)
Definition spec_candidates (car : CarInfo) (mb : float)
    (f : ExperienceFilters) (level : ExperienceLevel) (budget : BudgetRange)
    (goal : DrivingGoal) : list TuningRecommendation :=
  flat_map
    (fun c =>
       map (fun o => set_priority_score (recommendation_of c o)
                                        (spec_adjusted_score o level budget))
           (filter (accepts car mb f) (get_tuning_options_for_category c)))
    (get DrivingGoal_eqb goal_priorities goal []).

Lemma goal_candidates_spec car prefs mb f goal :
  In goal (primary_goals prefs) ->
  goal_candidates car prefs mb f goal
  = spec_candidates car mb f (experience_level prefs) (budget_range prefs) goal.
Proof.
  intros Hg; unfold goal_candidates, spec_candidates.
  apply flat_map_ext; intros c; apply map_ext_in; intros o Ho.
  apply filter_In in Ho; destruct Ho as [Ho _].
  unfold adjusted; rewrite (adjust_priority_score_spec _ _ _ _ Hg Ho).
  reflexivity.
Qed.

Lemma working_list_spec_candidates car prefs f :
  working_list car prefs f
  = flat_map (spec_candidates car (resolve_max_budget prefs) f
                              (experience_level prefs) (budget_range prefs))
             (primary_goals prefs).
Proof.
  unfold working_list.
  assert (G : forall l,
             incl l (primary_goals prefs) ->
             flat_map (goal_candidates car prefs (resolve_max_budget prefs) f) l
             = flat_map (spec_candidates car (resolve_max_budget prefs) f
                           (experience_level prefs) (budget_range prefs)) l).
  { induction l as [| g l IH]; intros Hl; simpl; [reflexivity |].
    rewrite goal_candidates_spec, IH; [reflexivity | |].
    - intros x Hx; apply Hl; right; exact Hx.
    - apply Hl; left; reflexivity. }
  apply G, incl_refl.
Qed.

Lemma spec_dedup_seen_ext s1 s2 (l : list TuningRecommendation) :
  (forall k, In k s1 <-> In k s2) -> spec_dedup s1 l = spec_dedup s2 l.
Proof.
  revert s1 s2; induction l as [| x l IH]; intros s1 s2 E; simpl;
    [reflexivity |].
  assert (M : set_mem (rec_key x) s1 = set_mem (rec_key x) s2).
  { destruct (set_mem (rec_key x) s1) eqn:E1; symmetry.
    - apply set_mem_In, E, set_mem_In, E1.
    - apply set_mem_false; intros H; apply E in H.
      apply set_mem_false in E1; contradiction. }
  rewrite M; destruct (set_mem (rec_key x) s2).
  - apply IH, E.
  - f_equal; apply IH; intros k; simpl; rewrite E; tauto.
Qed.

Lemma spec_dedup_app seen (l1 l2 : list TuningRecommendation) :
  spec_dedup seen (l1 ++ l2)
  = spec_dedup seen l1 ++ spec_dedup (map rec_key l1 ++ seen) l2.
Proof.
  revert seen; induction l1 as [| x l1 IH]; intros seen; simpl;
    [reflexivity |].
  destruct (set_mem (rec_key x) seen) eqn:E.
  - rewrite IH; f_equal; apply spec_dedup_seen_ext; intros k; simpl.
    rewrite !in_app_iff; apply set_mem_In in E.
    split; [tauto | intros [<- | [H | H]]; auto].
  - simpl; rewrite IH; do 2 f_equal.
    apply spec_dedup_seen_ext; intros k; simpl; rewrite !in_app_iff; simpl.
    tauto.
Qed.

Lemma spec_dedup_all_seen seen (l : list TuningRecommendation) :
  incl (map rec_key l) seen -> spec_dedup seen l = [].
Proof.
  induction l as [| x l IH]; intros H; simpl; [reflexivity |].
  assert (E : set_mem (rec_key x) seen = true)
    by (apply set_mem_In, H; left; reflexivity).
  rewrite E; apply IH; intros k Hk; apply H; right; exact Hk.
Qed.

Lemma deduplicate_repeated (A G B : list TuningRecommendation) :
  incl G A ->
  _deduplicate_recommendations (A ++ G ++ B)
  = _deduplicate_recommendations (A ++ B).
Proof.
  intros H; rewrite !deduplicate_recommendations_eq, !spec_dedup_app.
  f_equal; rewrite app_nil_r.
  rewrite spec_dedup_all_seen; [simpl |].
  - apply spec_dedup_seen_ext; intros k; rewrite in_app_iff.
    split; [intros [Hk | Hk]; [| exact Hk] | auto].
    apply in_map_iff in Hk; destruct Hk as [r [<- Hr]].
    apply in_map, H, Hr.
  - intros k Hk; apply in_map_iff in Hk; destruct Hk as [r [<- Hr]].
    apply in_map, H, Hr.
Qed.

(** X11.  Listing a goal a second time changes nothing in the result: the
    report for the goals with the repetition and the report for the goals
    without it have the same recommendations, in the same order and with
    the same scores, hence the same totals, matrix and summaries. *)
Theorem repeated_goal_changes_nothing car prefs now g before after :
  In g before ->
  exists rep rep',
    generate_recommendations car (with_goals prefs (before ++ g :: after)) now
    = Ok rep
    /\ generate_recommendations car (with_goals prefs (before ++ after)) now
       = Ok rep'
    /\ recommendations rep = recommendations rep'
    /\ total_estimated_cost rep = total_estimated_cost rep'
    /\ compatibility_matrix rep = compatibility_matrix rep'
    /\ safety_summary rep = safety_summary rep'
    /\ legal_summary rep = legal_summary rep'.
Proof.
  intros Hg.
  destruct (generate_recommendations_run car
              (with_goals prefs (before ++ g :: after)) now)
    as [f [rep [Hf [Hrep [Hrecs [Ht [Hm [Hs Hl]]]]]]]].
  destruct (generate_recommendations_run car
              (with_goals prefs (before ++ after)) now)
    as [f' [rep' [Hf' [Hrep' [Hrecs' [Ht' [Hm' [Hs' Hl']]]]]]]].
  exists rep, rep'; split; [exact Hrep |]; split; [exact Hrep' |].
  assert (E : recommendations rep = recommendations rep').
  { simpl in Hf, Hf'; rewrite Hf in Hf'; injection Hf' as <-.
    rewrite Hrecs, Hrecs', !working_list_spec_candidates; simpl.
    change (resolve_max_budget (with_goals prefs (before ++ g :: after)))
      with (resolve_max_budget prefs).
    change (resolve_max_budget (with_goals prefs (before ++ after)))
      with (resolve_max_budget prefs).
    unfold select_recommendations.
    rewrite !flat_map_app; simpl.
    rewrite deduplicate_repeated; [reflexivity |].
    intros r Hr; apply in_flat_map; exists g; split; assumption. }
  split; [exact E |].
  rewrite Ht, Ht', Hm, Hm', Hs, Hs', Hl, Hl', E; repeat split; reflexivity.
Qed.

Lemma repeated_goal_changes_nothing_witness :
  exists rep rep',
    generate_recommendations toyota_camry
      (with_goals toyota_beginner [DAILY_COMFORT; FUEL_ECONOMY; DAILY_COMFORT])
      some_time = Ok rep
    /\ generate_recommendations toyota_camry
         (with_goals toyota_beginner [DAILY_COMFORT; FUEL_ECONOMY]) some_time
       = Ok rep'
    /\ map name (recommendations rep')
       = ["Cold Air Intake System"; "Lowering Springs";
          "Lightweight Wheels"; "Performance Air Filter"]
    /\ recommendations rep = recommendations rep'.
Proof.
  destruct (repeated_goal_changes_nothing toyota_camry toyota_beginner
              some_time DAILY_COMFORT [DAILY_COMFORT; FUEL_ECONOMY] []
              (or_introl eq_refl))
    as [rep [rep' [Hrep [Hrep' [E _]]]]].
  exists rep, rep'; split; [exact Hrep |]; split; [exact Hrep' |].
  split; [| exact E].
  vm_compute in Hrep'; injection Hrep' as <-; reflexivity.
Defined.

(** ** The tiers of the safety summary, by experience *)

Lemma no_member_nil {A} (l : list A) : (forall x, ~ In x l) -> l = [].
Proof.
  destruct l as [| a l]; [reflexivity |].
  intros H; exfalso; apply (H a); left; reflexivity.
Qed.

Lemma tier_empty level recs :
  Forall (fun r => safety_level r <> level) recs ->
  list_of_set (warnings_of level recs) = [].
Proof.
  intros H; apply no_member_nil; intros w Hw.
  apply list_of_set_In, warnings_of_In in Hw.
  destruct Hw as [r [Hr [E _]]].
  rewrite Forall_forall in H; apply (H r Hr E).
Qed.

Lemma working_list_levels car prefs f :
  subscript ExperienceLevel_eqb experience_filters (experience_level prefs)
  = Ok f ->
  Forall
    (fun r =>
       match experience_level prefs with
       | BEGINNER => safety_level r <> HIGH
       | _ => safety_level r = HIGH
       end)
    (working_list car prefs f).
Proof.
  intros Hf; apply Forall_forall; intros r Hr.
  destruct (working_list_origin _ _ _ _ Hr) as [g [c [o [_ [_ [_ [Ha ->]]]]]]].
  apply accepts_passes in Ha; simpl.
  destruct (experience_level prefs); injection Hf as <-.
  - assert (E : o_safety_level o = LOW \/ o_safety_level o = MEDIUM)
      by (revert Ha; apply passes_avoid_high; reflexivity).
    destruct E as [E | E]; rewrite E; discriminate.
  - revert Ha; apply passes_under_high_ceiling; reflexivity.
  - revert Ha; apply passes_under_high_ceiling; reflexivity.
Qed.

(** X21.  In the report of a beginner the high-risk tier of the safety
    summary is empty; in the report of an intermediate or advanced user
    the medium-risk and low-risk tiers are empty, since only
    recommendations of safety level high pass the filter of these
    levels. *)
Theorem summary_tiers_by_experience car prefs now :
  exists rep,
    generate_recommendations car prefs now = Ok rep
    /\ (experience_level prefs = BEGINNER ->
        high_risk (safety_summary rep) = [])
    /\ (experience_level prefs = INTERMEDIATE
        \/ experience_level prefs = ADVANCED ->
        medium_risk (safety_summary rep) = []
        /\ low_risk (safety_summary rep) = []).
Proof.
  destruct (generate_recommendations_run car prefs now)
    as [f [rep [Hf [Hrep [Hrecs [_ [_ [Hs _]]]]]]]].
  exists rep; split; [exact Hrep |].
  assert (L := select_Forall _ _ (resolve_max_budget prefs)
                 (working_list_levels car prefs f Hf)).
  rewrite <- Hrecs in L.
  rewrite Hs; unfold _generate_safety_summary; rewrite safety_fold; simpl.
  split.
  - intros E; rewrite E in L; apply tier_empty, L.
  - intros E; split; apply tier_empty;
      apply (Forall_impl _ (P := fun r => safety_level r = HIGH));
      try (intros r Hr; rewrite Hr; discriminate);
      destruct E as [E | E]; rewrite E in L; exact L.
Qed.

Lemma summary_tiers_by_experience_witness :
  (exists rep,
      generate_recommendations toyota_camry toyota_beginner some_time = Ok rep
      /\ high_risk (safety_summary rep) = [])
  /\ (exists rep,
         generate_recommendations bmw_3_series bmw_performance some_time
         = Ok rep
         /\ medium_risk (safety_summary rep) = []
         /\ low_risk (safety_summary rep) = []).
Proof.
  split.
  - destruct (summary_tiers_by_experience toyota_camry toyota_beginner
                some_time) as [rep [Hrep [H _]]].
    exists rep; split; [exact Hrep | apply H; reflexivity].
  - destruct (summary_tiers_by_experience bmw_3_series bmw_performance
                some_time) as [rep [Hrep [_ H]]].
    exists rep; split; [exact Hrep | apply H; right; reflexivity].
Defined.

(** * Input validation and the agent

    [src/input_validator.py] and [CarTuningAgent.generate_recommendations]
    of [src/main.py], the caller of the engine.

    Three builtins the validator applies to text it is given cannot be
    written down here: [str.lower], which follows the Unicode case
    mapping; [len], which counts the code points of a text, while a
    [string] holds its bytes (the two agree on ASCII text only); and the
    conversion of a float to text inside an f-string.  They are
    parameters of this part, and what is proved holds for every choice of
    them. *)

From Stdlib Require Import DecimalString.

Definition EngineType_value (e : EngineType) : string :=
  match e with
  | PETROL => "petrol" | DIESEL => "diesel"
  | HYBRID => "hybrid" | ELECTRIC => "electric"
  end.

Definition DrivingGoal_value (g : DrivingGoal) : string :=
  match g with
  | PERFORMANCE => "performance" | FUEL_ECONOMY => "fuel_economy"
  | DAILY_COMFORT => "daily_comfort" | TRACK_USE => "track_use"
  | OFF_ROADING => "off_roading"
  end.

Definition BudgetRange_value (b : BudgetRange) : string :=
  match b with
  | BUDGET => "budget" | MODERATE => "moderate"
  | PREMIUM => "premium" | UNLIMITED => "unlimited"
  end.

Definition ExperienceLevel_value (l : ExperienceLevel) : string :=
  match l with
  | BEGINNER => "beginner" | INTERMEDIATE => "intermediate"
  | ADVANCED => "advanced"
  end.

(** The members of the enumerations, for [x in DrivingGoal] and the like. *)
Definition all_goals : list DrivingGoal :=
  [PERFORMANCE; FUEL_ECONOMY; DAILY_COMFORT; TRACK_USE; OFF_ROADING].

(** [x in xs] for a string and a list of strings. *)
Definition str_in (x : string) (xs : list string) : bool :=
  existsb (String.eqb x) xs.

(** [str(n)] for an integer that is not negative. *)
Definition str_of_nat (n : nat) : string :=
  NilZero.string_of_uint (Nat.to_uint n).

Definition valid_makes : list string :=
  [ "Toyota"; "Honda"; "Ford"; "Chevrolet"; "Nissan"; "BMW";
    "Mercedes-Benz"; "Audi"; "Volkswagen"; "Hyundai"; "Kia"; "Mazda";
    "Subaru"; "Mitsubishi"; "Lexus"; "Infiniti"; "Acura"; "Volvo"; "Saab";
    "Peugeot"; "Renault"; "Fiat"; "Alfa Romeo"; "Ferrari"; "Lamborghini";
    "Porsche"; "Aston Martin"; "Bentley"; "Rolls-Royce"; "McLaren";
    "Bugatti"; "Koenigsegg"; "Pagani"; "Tesla"; "Rivian"; "Lucid";
    "Polestar"; "NIO"; "BYD"; "Rimac" ].

Definition valid_models : dict string (list string) :=
  [ ("Toyota",
      ["Camry"; "Corolla"; "Prius"; "RAV4"; "Highlander"; "Tacoma";
       "Tundra"; "Supra"; "86"]);
    ("Honda",
      ["Civic"; "Accord"; "CR-V"; "Pilot"; "Ridgeline"; "NSX"; "S2000"]);
    ("Ford",
      ["F-150"; "Mustang"; "Focus"; "Fusion"; "Escape"; "Explorer";
       "Bronco"; "GT"]);
    ("BMW",
      ["3 Series"; "5 Series"; "7 Series"; "X3"; "X5"; "M3"; "M5"; "i3";
       "i8"]);
    ("Mercedes-Benz",
      ["C-Class"; "E-Class"; "S-Class"; "GLC"; "GLE"; "AMG GT"; "EQS"]);
    ("Audi",
      ["A3"; "A4"; "A6"; "Q3"; "Q5"; "Q7"; "RS3"; "RS6"; "e-tron"]);
    ("Tesla",
      ["Model S"; "Model 3"; "Model X"; "Model Y"; "Cybertruck"; "Roadster"]);
    ("Porsche",
      ["911"; "Cayman"; "Boxster"; "Cayenne"; "Macan"; "Panamera"; "Taycan"]) ].

Definition engine_compatibility : dict EngineType (list string) :=
  [ (PETROL,
      ["Toyota"; "Honda"; "Ford"; "BMW"; "Mercedes-Benz"; "Audi"; "Porsche"]);
    (DIESEL,
      ["BMW"; "Mercedes-Benz"; "Audi"; "Volkswagen"; "Volvo"]);
    (HYBRID,
      ["Toyota"; "Honda"; "Ford"; "BMW"; "Mercedes-Benz"; "Audi"]);
    (ELECTRIC,
      ["Tesla"; "BMW"; "Mercedes-Benz"; "Audi"; "Porsche"; "Rivian"; "Lucid"]) ].

(** The table local to [_validate_max_budget]. *)
Definition validator_budget_ranges : dict BudgetRange (float * float) :=
  [ (BUDGET, (500%float, 2000%float));
    (MODERATE, (2000%float, 8000%float));
    (PREMIUM, (8000%float, 20000%float));
    (UNLIMITED, (20000%float, 100000%float)) ].

(** What a call of the agent ends in. *)
Inductive exception :=
  | ValueError (message : string)
  | KeyError_raised.

Inductive outcome :=
  | Returned (report : TuningReport)
  | Raised (e : exception).

Section Validator.
Variable lower : string -> string.
Variable len : string -> nat.
Variable float_repr : float -> string.

Definition _validate_make (make : string) : bool :=
  let make_lower := lower make in
  let valid_makes_lower := map lower valid_makes in
  str_in make_lower valid_makes_lower.

(** [self.valid_models[make]] is read only when [make] is a key. *)
Definition _validate_model (make model : string) : bool :=
  match dict_find String.eqb valid_models make with
  | None => true
  | Some models => str_in model models
  end.

Definition _validate_year (year : nat) : bool :=
  Nat.leb 1900 year && Nat.leb year 2030.

Definition _validate_engine_compatibility (make : string)
    (engine_type : EngineType) : bool :=
  let common_makes :=
    ["Toyota"; "Honda"; "Ford"; "BMW"; "Mercedes-Benz"; "Audi";
     "Volkswagen"; "Hyundai"; "Kia"] in
  let common_makes_lower := map lower common_makes in
  if str_in (lower make) common_makes_lower then true
  else
    let compatible_makes := get EngineType_eqb engine_compatibility engine_type [] in
    let compatible_makes_lower := map lower compatible_makes in
    str_in (lower make) compatible_makes_lower.

Definition _validate_modification (modification : string) : bool :=
  if Nat.ltb (len modification) 3 || Nat.ltb 100 (len modification)
  then false
  else
    let inappropriate_words := ["illegal"; "unsafe"; "dangerous"; "void"] in
    if existsb (fun word => str_contains word (lower modification))
               inappropriate_words
    then false
    else true.

Definition _validate_goal (goal : DrivingGoal) : bool :=
  existsb (DrivingGoal_eqb goal) all_goals.

Definition _validate_budget_range (budget_range : BudgetRange) : bool :=
  existsb (BudgetRange_eqb budget_range) all_budgets.

Definition _validate_experience_level (experience_level : ExperienceLevel)
  : bool :=
  existsb (ExperienceLevel_eqb experience_level) all_levels.

Definition _validate_max_budget (max_budget : float)
    (budget_range : BudgetRange) : bool :=
  let '(min_budget, max_budget_range) :=
    get BudgetRange_eqb validator_budget_ranges budget_range
        (0%float, 0%float) in
  PrimFloat.leb min_budget max_budget
  && PrimFloat.leb max_budget max_budget_range.

(** [errors.append(msg)] under [if not ok]. *)
Definition check (ok : bool) (msg : string) (errors : list string)
  : list string :=
  if negb ok then errors ++ [msg] else errors.

Definition validate_car_info (car_info : CarInfo) : bool * list string :=
  let errors := [] in
  let errors :=
    check (_validate_make (make car_info))
          ("Invalid car make: " ++ make car_info)%string errors in
  let errors :=
    check (_validate_model (make car_info) (model car_info))
          ("Invalid model '" ++ model car_info ++ "' for make '"
           ++ make car_info ++ "'")%string errors in
  let errors :=
    check (_validate_year (year car_info))
          ("Invalid year: " ++ str_of_nat (year car_info)
           ++ ". Must be between 1900 and 2030")%string errors in
  let errors :=
    check (_validate_engine_compatibility (make car_info)
                                          (engine_type car_info))
          ("Warning: Engine type '"
           ++ EngineType_value (engine_type car_info)
           ++ "' may not be typical for " ++ make car_info)%string errors in
  let errors :=
    fold_left
      (fun errors modification =>
         check (_validate_modification modification)
               ("Invalid modification: " ++ modification)%string errors)
      (current_modifications car_info) errors in
  (Nat.eqb (length errors) 0, errors).

Definition validate_user_preferences (preferences : UserPreferences)
  : bool * list string :=
  let errors := [] in
  let errors :=
    match primary_goals preferences with
    | [] => errors ++ ["At least one primary goal must be specified"]
    | goals =>
        fold_left
          (fun errors goal =>
             check (_validate_goal goal)
                   ("Invalid driving goal: " ++ DrivingGoal_value goal)%string
                   errors)
          goals errors
    end in
  let errors :=
    check (_validate_budget_range (budget_range preferences))
          ("Invalid budget range: "
           ++ BudgetRange_value (budget_range preferences))%string errors in
  let errors :=
    check (_validate_experience_level (experience_level preferences))
          ("Invalid experience level: "
           ++ ExperienceLevel_value (experience_level preferences))%string
          errors in
  let errors :=
    match max_budget preferences with
    | Some b =>
        check (_validate_max_budget b (budget_range preferences))
              ("Max budget $" ++ float_repr b
               ++ " is outside the specified budget range")%string errors
    | None => errors
    end in
  (Nat.eqb (length errors) 0, errors).

Definition get_suggestions_for_make (partial_make : string) : list string :=
  let partial_lower := lower partial_make in
  let suggestions :=
    filter (fun make => str_contains partial_lower (lower make)) valid_makes in
  firstn 5 suggestions.

Definition get_suggestions_for_model (make partial_model : string)
  : list string :=
  match dict_find String.eqb valid_models make with
  | None => []
  | Some models =>
      let partial_lower := lower partial_model in
      let suggestions :=
        filter (fun model => str_contains partial_lower (lower model))
               models in
      firstn 5 suggestions
  end.

Definition get_compatible_engine_types (make : string) : list EngineType :=
  map fst (filter (fun item => str_in make (snd item)) engine_compatibility).

Definition _cross_validate (car_info : CarInfo)
    (user_preferences : UserPreferences) : list string :=
  let has goal :=
    existsb (DrivingGoal_eqb goal) (primary_goals user_preferences) in
  let errors := [] in
  let errors :=
    if EngineType_eqb (engine_type car_info) ELECTRIC
    then
      let errors :=
        if has FUEL_ECONOMY
        then errors
             ++ ["Fuel economy goal is not applicable for electric vehicles"]
        else errors in
      if has TRACK_USE
      then errors
           ++ ["Track use modifications for electric vehicles may have limited options"]
      else errors
    else errors in
  let errors :=
    if BudgetRange_eqb (budget_range user_preferences) BUDGET
    then
      let luxury_makes :=
        ["BMW"; "Mercedes-Benz"; "Audi"; "Porsche"; "Ferrari"; "Lamborghini"] in
      if str_in (make car_info) luxury_makes
      then errors
           ++ ["Budget range may be too low for luxury vehicle modifications"]
      else errors
    else errors in
  let errors :=
    if ExperienceLevel_eqb (experience_level user_preferences) BEGINNER
    then
      if has TRACK_USE
      then errors
           ++ ["Track use modifications may be too complex for beginners"]
      else errors
    else errors in
  errors.

Definition validate_complete_request (car_info : CarInfo)
    (user_preferences : UserPreferences) : bool * list string :=
  let '(car_valid, car_errors) := validate_car_info car_info in
  let '(pref_valid, pref_errors) := validate_user_preferences user_preferences in
  let all_errors := car_errors ++ pref_errors in
  let all_errors :=
    if car_valid && pref_valid
    then all_errors ++ _cross_validate car_info user_preferences
    else all_errors in
  (Nat.eqb (length all_errors) 0, all_errors).

(** [CarTuningAgent.generate_recommendations] of an agent whose
    enhancement is off ([use_llm_enhancement] false, or no API key): what
    it returns is then the report of the engine. *)
Definition agent_generate_recommendations (car_info : CarInfo)
    (user_preferences : UserPreferences) (now : string) : outcome :=
  let '(car_valid, car_errors) := validate_car_info car_info in
  let '(pref_valid, pref_errors) := validate_user_preferences user_preferences in
  if negb car_valid || negb pref_valid
  then
    let errors := car_errors ++ pref_errors in
    Raised (ValueError ("Input validation failed: "
                        ++ String.concat "; " errors)%string)
  else
    match generate_recommendations car_info user_preferences now with
    | Ok base_report => Returned base_report
    | KeyError => Raised KeyError_raised
    end.

(** ** How the error lists grow *)

Lemma no_errors_iff (errors : list string) :
  Nat.eqb (length errors) 0 = true <-> errors = [].
Proof. destruct errors; simpl; split; congruence. Qed.

Lemma check_nil ok msg errors :
  check ok msg errors = [] <-> ok = true /\ errors = [].
Proof.
  unfold check; destruct ok; simpl.
  - split; [auto | intros [_ H]; exact H].
  - split; [intros H; destruct errors; discriminate | intros [H _]; discriminate].
Qed.

Lemma check_fold_nil {A} (ok : A -> bool) (msg : A -> string) l errors :
  fold_left (fun errors x => check (ok x) (msg x) errors) l errors = []
  <-> forallb ok l = true /\ errors = [].
Proof.
  revert errors; induction l as [| x l IH]; intros errors; simpl.
  - split; [auto | intros [_ H]; exact H].
  - rewrite IH, check_nil, andb_true_iff; tauto.
Qed.

Lemma validate_goal_true goal : _validate_goal goal = true.
Proof. destruct goal; reflexivity. Qed.

Lemma validator_ranges_agree tier :
  get BudgetRange_eqb validator_budget_ranges tier (0%float, 0%float)
  = (cost_min (get_budget_range tier), cost_max (get_budget_range tier)).
Proof. destruct tier; reflexivity. Qed.

(** ** Validation of the car and of the preferences *)

Lemma car_valid_errors (car : CarInfo) :
  fst (validate_car_info car) = true <-> snd (validate_car_info car) = [].
Proof. unfold validate_car_info; simpl; apply no_errors_iff. Qed.

Lemma car_errors_nil (car : CarInfo) :
  snd (validate_car_info car) = []
  <-> _validate_make (make car) = true
      /\ _validate_model (make car) (model car) = true
      /\ _validate_year (year car) = true
      /\ _validate_engine_compatibility (make car) (engine_type car) = true
      /\ forallb _validate_modification (current_modifications car) = true.
Proof.
  unfold validate_car_info; simpl.
  rewrite check_fold_nil, !check_nil; tauto.
Qed.

(** X12.  [validate_car_info] reports the car valid exactly when its list
    of errors is empty, and that is exactly when the make, the model, the
    year and the engine compatibility check pass and so does every listed
    modification.  The message of the engine compatibility check starts
    with "Warning", but it counts like any other error. *)
Theorem car_info_valid_iff (car : CarInfo) :
  (fst (validate_car_info car) = true <-> snd (validate_car_info car) = [])
  /\ (fst (validate_car_info car) = true
      <-> _validate_make (make car) = true
          /\ _validate_model (make car) (model car) = true
          /\ _validate_year (year car) = true
          /\ _validate_engine_compatibility (make car) (engine_type car) = true
          /\ forallb _validate_modification (current_modifications car) = true).
Proof.
  split; [apply car_valid_errors |].
  rewrite car_valid_errors; apply car_errors_nil.
Qed.

Lemma preferences_valid_errors (prefs : UserPreferences) :
  fst (validate_user_preferences prefs) = true
  <-> snd (validate_user_preferences prefs) = [].
Proof. unfold validate_user_preferences; simpl; apply no_errors_iff. Qed.

(** The two conditions under which the preferences pass. *)
Definition preferences_pass (prefs : UserPreferences) : Prop :=
  primary_goals prefs <> []
  /\ match max_budget prefs with
     | None => True
     | Some b =>
         PrimFloat.leb (cost_min (get_budget_range (budget_range prefs))) b
         = true
         /\ PrimFloat.leb b (cost_max (get_budget_range (budget_range prefs)))
            = true
     end.

Lemma preferences_errors_nil (prefs : UserPreferences) :
  snd (validate_user_preferences prefs) = [] <-> preferences_pass prefs.
Proof.
  unfold validate_user_preferences, preferences_pass; cbv zeta; cbn [snd].
  assert (B : _validate_budget_range (budget_range prefs) = true)
    by (destruct (budget_range prefs); reflexivity).
  assert (L : _validate_experience_level (experience_level prefs) = true)
    by (destruct (experience_level prefs); reflexivity).
  assert (G : forall gs : list DrivingGoal,
             fold_left
               (fun errors goal =>
                  check (_validate_goal goal)
                        ("Invalid driving goal: " ++ DrivingGoal_value goal)%string
                        errors)
               gs [] = []).
  { intros gs; apply check_fold_nil; split; [| reflexivity].
    apply forallb_forall; intros x _; apply validate_goal_true. }
  destruct (max_budget prefs) as [b |]; rewrite !check_nil, B, L.
  - unfold _validate_max_budget; rewrite validator_ranges_agree.
    rewrite andb_true_iff.
    destruct (primary_goals prefs) as [| g gs].
    + split; [intros [_ [_ [_ H]]]; discriminate | intros [H _]; contradiction].
    + rewrite G; split; [intros [H _] | intros [_ H]]; repeat split;
        try discriminate; tauto.
  - destruct (primary_goals prefs) as [| g gs].
    + split; [intros [_ [_ H]]; discriminate | intros [H _]; contradiction].
    + rewrite G; split; [intros _ | intros _]; repeat split; discriminate.
Qed.
(** X13.  [validate_user_preferences] reports the preferences valid
    exactly when there is at least one goal and [max_budget] is either
    absent or within the bounds, both included, that the knowledge base
    gives for the budget range: the checks of the enumeration values never
    fail, and the table of the validator is the one of the knowledge
    base. *)
Theorem user_preferences_valid_iff (prefs : UserPreferences) :
  fst (validate_user_preferences prefs) = true
  <-> primary_goals prefs <> []
      /\ match max_budget prefs with
         | None => True
         | Some b =>
             PrimFloat.leb (cost_min (get_budget_range (budget_range prefs))) b
             = true
             /\ PrimFloat.leb b (cost_max (get_budget_range (budget_range prefs)))
                = true
         end.
Proof.
  rewrite preferences_valid_errors, preferences_errors_nil.
  unfold preferences_pass; tauto.
Qed.

(** ** The agent *)

Lemma tier_min_excludes_zero tier b :
  PrimFloat.leb (cost_min (get_budget_range tier)) b = true ->
  PrimFloat.eqb b 0 = false.
Proof.
  rewrite FloatAxioms.leb_spec, FloatAxioms.eqb_spec.
  intros H.
  destruct (Prim2SF b) as [[|] | [|] | | [|] m e]; try reflexivity;
    destruct tier; vm_compute in H; discriminate.
Qed.

Lemma agent_cases car prefs now :
  agent_generate_recommendations car prefs now
  = if fst (validate_car_info car) && fst (validate_user_preferences prefs)
    then match generate_recommendations car prefs now with
         | Ok base_report => Returned base_report
         | KeyError => Raised KeyError_raised
         end
    else Raised (ValueError
           ("Input validation failed: "
            ++ String.concat "; "
                 (snd (validate_car_info car)
                  ++ snd (validate_user_preferences prefs)))%string).
Proof.
  unfold agent_generate_recommendations.
  destruct (validate_car_info car) as [[|] ce];
    destruct (validate_user_preferences prefs) as [[|] pe]; reflexivity.
Qed.

Lemma agent_returned_inv car prefs now rep :
  agent_generate_recommendations car prefs now = Returned rep ->
  fst (validate_car_info car) = true
  /\ fst (validate_user_preferences prefs) = true
  /\ generate_recommendations car prefs now = Ok rep.
Proof.
  rewrite agent_cases.
  destruct (fst (validate_car_info car)),
           (fst (validate_user_preferences prefs));
    simpl; try discriminate.
  destruct (generate_recommendations car prefs now) as [r |];
    [| discriminate].
  intros H; injection H as <-; auto.
Qed.

(** X14.  The agent returns a report exactly when both validations pass,
    and the report is then the one of the engine; otherwise it raises
    [ValueError] with the messages of both validations joined by "; ".
    The engine's [KeyError] never comes out of it. *)
Theorem agent_validates_then_runs_engine car prefs now :
  (fst (validate_car_info car) = true
   /\ fst (validate_user_preferences prefs) = true
   /\ exists rep,
        agent_generate_recommendations car prefs now = Returned rep
        /\ generate_recommendations car prefs now = Ok rep)
  \/ ((fst (validate_car_info car) = false
       \/ fst (validate_user_preferences prefs) = false)
      /\ agent_generate_recommendations car prefs now
         = Raised (ValueError
             ("Input validation failed: "
              ++ String.concat "; "
                   (snd (validate_car_info car)
                    ++ snd (validate_user_preferences prefs)))%string)).
Proof.
  rewrite agent_cases.
  destruct (fst (validate_car_info car)),
           (fst (validate_user_preferences prefs)); simpl; auto.
  left; split; [reflexivity |]; split; [reflexivity |].
  destruct (generate_recommendations_total car prefs now) as [rep ->].
  exists rep; auto.
Qed.

(** X15.  When the agent returns a report there was at least one goal,
    and the spending cap the engine resolved is the stated [max_budget]
    when there is one, the upper bound of the budget range otherwise, and
    lies within the bounds of the budget range: a [max_budget] of zero,
    which the engine would take for an absent one, does not pass
    validation. *)
Theorem agent_report_uses_stated_budget car prefs now rep :
  agent_generate_recommendations car prefs now = Returned rep ->
  primary_goals prefs <> []
  /\ generate_recommendations car prefs now = Ok rep
  /\ resolve_max_budget prefs
     = match max_budget prefs with
       | Some b => b
       | None => cost_max (get_budget_range (budget_range prefs))
       end
  /\ PrimFloat.leb (cost_min (get_budget_range (budget_range prefs)))
                   (resolve_max_budget prefs) = true
  /\ PrimFloat.leb (resolve_max_budget prefs)
                   (cost_max (get_budget_range (budget_range prefs))) = true.
Proof.
  intros H; destruct (agent_returned_inv _ _ _ _ H) as [_ [Hp Hrep]].
  apply preferences_valid_errors, preferences_errors_nil in Hp.
  destruct Hp as [Hg Hb].
  split; [exact Hg |]; split; [exact Hrep |].
  rewrite resolve_max_budget_cases.
  destruct (max_budget prefs) as [b |].
  - destruct Hb as [Hlo Hhi].
    rewrite (tier_min_excludes_zero _ _ Hlo); auto.
  - destruct (budget_range prefs); repeat split; reflexivity.
Qed.

(** X16.  With an empty list of goals the agent raises [ValueError],
    whatever the car: the engine, which would return an empty report, is
    not reached, and "At least one primary goal must be specified" is
    among the errors. *)
Theorem agent_rejects_empty_goals car prefs now :
  primary_goals prefs = [] ->
  In "At least one primary goal must be specified"
     (snd (validate_user_preferences prefs))
  /\ exists message,
       agent_generate_recommendations car prefs now
       = Raised (ValueError message).
Proof.
  intros Hg; split.
  - unfold validate_user_preferences; simpl; rewrite Hg; simpl.
    unfold check.
    destruct (negb (_validate_budget_range _)),
             (negb (_validate_experience_level _)),
             (max_budget prefs) as [b |];
      try destruct (negb (_validate_max_budget b _));
      simpl; rewrite ?in_app_iff; simpl; tauto.
  - rewrite agent_cases.
    destruct (fst (validate_user_preferences prefs)) eqn:Hp.
    + apply preferences_valid_errors, preferences_errors_nil in Hp.
      destruct Hp as [Hne _]; contradiction.
    + rewrite andb_false_r; eexists; reflexivity.
Qed.

(** ** Suggestions *)

Lemma Subseq_filter_self {A} (p : A -> bool) (l : list A) :
  Subseq (filter p l) l.
Proof.
  induction l as [| x l IH]; simpl; [constructor |].
  destruct (p x); constructor; exact IH.
Qed.

Lemma str_in_In x xs : str_in x xs = true <-> In x xs.
Proof. apply existsb_eqb_In. Qed.

Lemma valid_make_accepted m : In m valid_makes -> _validate_make m = true.
Proof.
  intros H; unfold _validate_make; apply str_in_In, in_map, H.
Qed.

(** X17.  [get_suggestions_for_make] returns at most five makes, all of
    them valid makes in the order of the validator's list, each accepted
    by [_validate_make] and each containing the lowered input in its
    lowered form. *)
Theorem make_suggestions_are_valid (partial_make : string) :
  length (get_suggestions_for_make partial_make) <= 5
  /\ Subseq (get_suggestions_for_make partial_make) valid_makes
  /\ Forall
       (fun m =>
          _validate_make m = true
          /\ str_contains (lower partial_make) (lower m) = true)
       (get_suggestions_for_make partial_make).
Proof.
  unfold get_suggestions_for_make; cbv zeta.
  split; [rewrite length_firstn; apply Nat.le_min_l |].
  assert (S : Subseq
                (firstn 5 (filter (fun make =>
                                     str_contains (lower partial_make)
                                                  (lower make))
                                  valid_makes))
                valid_makes)
    by (apply (Subseq_trans _ _ _ (Subseq_firstn _ _)), Subseq_filter_self).
  split; [exact S |].
  apply Forall_forall; intros m Hm; split.
  - apply valid_make_accepted, (Subseq_In _ _ S), Hm.
  - apply (Subseq_In _ _ (Subseq_firstn _ _)) in Hm.
    apply filter_In in Hm; apply Hm.
Qed.

(** X18.  [get_suggestions_for_model] returns at most five models, each
    accepted by [_validate_model] for the given make and each containing
    the lowered input in its lowered form; for a make that is not, letter
    for letter, a key of the model table it returns none. *)
Theorem model_suggestions_are_valid (make partial_model : string) :
  length (get_suggestions_for_model make partial_model) <= 5
  /\ Forall
       (fun m =>
          _validate_model make m = true
          /\ str_contains (lower partial_model) (lower m) = true)
       (get_suggestions_for_model make partial_model)
  /\ (str_in make (map fst valid_models) = false ->
      get_suggestions_for_model make partial_model = []).
Proof.
  unfold get_suggestions_for_model, _validate_model.
  destruct (dict_find String.eqb valid_models make) as [models |] eqn:E.
  - cbv zeta; split; [rewrite length_firstn; apply Nat.le_min_l |].
    split.
    + apply Forall_forall; intros m Hm.
      apply (Subseq_In _ _ (Subseq_firstn _ _)) in Hm.
      apply filter_In in Hm; destruct Hm as [Hm Hc].
      split; [apply str_in_In, Hm | exact Hc].
    + intros Hno; exfalso; revert E Hno; unfold str_in; clear.
      induction valid_models as [| [k v] d IH]; simpl; [discriminate |].
      destruct (String.eqb make k); simpl; [discriminate | exact IH].
  - split; [simpl; lia |]; split; [constructor | reflexivity].
Qed.

(** X19.  Every engine type that [get_compatible_engine_types] returns
    for a make passes [_validate_engine_compatibility] for that make, and
    no engine type is returned twice. *)
Theorem compatible_engine_types_pass (make : string) :
  Forall (fun e => _validate_engine_compatibility make e = true)
         (get_compatible_engine_types make)
  /\ NoDup (get_compatible_engine_types make).
Proof.
  unfold get_compatible_engine_types; split.
  - apply Forall_forall; intros e He.
    apply in_map_iff in He; destruct He as [[e' makes] [<- Hin]].
    apply filter_In in Hin; destruct Hin as [Hin Hm]; simpl in *.
    unfold _validate_engine_compatibility; cbv zeta.
    destruct (str_in (lower make) _); [reflexivity |].
    apply str_in_In, in_map.
    apply str_in_In in Hm.
    repeat (destruct Hin as [Hin | Hin];
            [injection Hin as <- <-; exact Hm |]).
    contradiction.
  - apply (Subseq_NoDup _ (map fst engine_compatibility)).
    + apply Subseq_map, Subseq_filter_self.
    + simpl; repeat constructor; simpl; intuition discriminate.
Qed.

(** ** The complete request *)

(** X20.  [validate_complete_request] accepts a request only if both
    validations pass and none of the cross checks fires: no electric car
    with the goal fuel economy or track use, no beginner with the goal
    track use, no budget range "budget" with a luxury make. *)
Theorem complete_request_valid_only_if car prefs :
  fst (validate_complete_request car prefs) = true ->
  fst (validate_car_info car) = true
  /\ fst (validate_user_preferences prefs) = true
  /\ (engine_type car = ELECTRIC ->
      existsb (DrivingGoal_eqb FUEL_ECONOMY) (primary_goals prefs) = false
      /\ existsb (DrivingGoal_eqb TRACK_USE) (primary_goals prefs) = false)
  /\ (experience_level prefs = BEGINNER ->
      existsb (DrivingGoal_eqb TRACK_USE) (primary_goals prefs) = false)
  /\ (budget_range prefs = BUDGET ->
      str_in (make car)
             ["BMW"; "Mercedes-Benz"; "Audi"; "Porsche"; "Ferrari";
              "Lamborghini"] = false).
Proof.
  unfold validate_complete_request.
  assert (Hc := car_valid_errors car).
  assert (Hp := preferences_valid_errors prefs).
  destruct (validate_car_info car) as [cv ce].
  destruct (validate_user_preferences prefs) as [pv pe]; cbn [fst snd] in *.
  rewrite no_errors_iff; intros H.
  destruct cv, pv; simpl in H;
    try (apply app_eq_nil in H; destruct H as [H1 H2];
         first [ apply Hc in H1; discriminate
               | apply Hp in H2; discriminate ]).
  apply app_eq_nil in H; destruct H as [_ H].
  split; [reflexivity |]; split; [reflexivity |].
  revert H; unfold _cross_validate; cbv zeta.
  set (fe := existsb (DrivingGoal_eqb FUEL_ECONOMY) (primary_goals prefs)).
  set (tu := existsb (DrivingGoal_eqb TRACK_USE) (primary_goals prefs)).
  set (lux := str_in (make car) _).
  clearbody fe tu lux.
  destruct (engine_type car), (experience_level prefs), (budget_range prefs),
           fe, tu, lux;
    simpl; intros H; try discriminate H;
    repeat (split || intro); congruence.
Qed.

End Validator.

(** ** Examples on ASCII text *)

(** [str.lower] on text in ASCII. *)
Definition ascii_lower_char (c : ascii) : ascii :=
  let n := nat_of_ascii c in
  if Nat.leb 65 n && Nat.leb n 90 then ascii_of_nat (n + 32) else c.

Fixpoint ascii_lower (s : string) : string :=
  match s with
  | EmptyString => EmptyString
  | String c s' => String (ascii_lower_char c) (ascii_lower s')
  end.

(** On ASCII text [len] is [String.length].  A stand-in for the text of a
    float; no message of the examples holds one. *)
Definition no_float_repr (x : float) : string := "".

Lemma agent_report_uses_stated_budget_witness :
  exists rep,
    agent_generate_recommendations ascii_lower String.length no_float_repr
      bmw_3_series bmw_performance some_time = Returned rep
    /\ map name (recommendations rep) = ["Stage 2 ECU Remap"; "Big Brake Kit"]
    /\ resolve_max_budget bmw_performance = 15000%float.
Proof.
  destruct (generate_recommendations_total bmw_3_series bmw_performance
              some_time) as [rep G].
  assert (E : agent_generate_recommendations ascii_lower String.length no_float_repr
                bmw_3_series bmw_performance some_time = Returned rep)
    by (rewrite agent_cases, G; reflexivity).
  exists rep; split; [exact E |].
  destruct (agent_report_uses_stated_budget ascii_lower String.length no_float_repr
              bmw_3_series bmw_performance some_time rep E)
    as [_ [_ [R _]]].
  split; [| exact R].
  vm_compute in G; injection G as <-; reflexivity.
Defined.

Lemma agent_rejects_empty_goals_witness :
  In "At least one primary goal must be specified"
     (snd (validate_user_preferences no_float_repr
             (with_goals tesla_electric [])))
  /\ exists message,
       agent_generate_recommendations ascii_lower String.length no_float_repr
         tesla_model_3 (with_goals tesla_electric []) some_time
       = Raised (ValueError message).
Proof.
  apply (agent_rejects_empty_goals ascii_lower String.length no_float_repr tesla_model_3
           (with_goals tesla_electric []) some_time).
  reflexivity.
Defined.

Lemma complete_request_valid_only_if_witness :
  fst (validate_complete_request ascii_lower String.length no_float_repr
         tesla_model_3 tesla_electric) = true
  /\ existsb (DrivingGoal_eqb FUEL_ECONOMY) (primary_goals tesla_electric)
     = false
  /\ existsb (DrivingGoal_eqb TRACK_USE) (primary_goals tesla_electric)
     = false.
Proof.
  assert (V : fst (validate_complete_request ascii_lower String.length no_float_repr
                     tesla_model_3 tesla_electric) = true)
    by (vm_compute; reflexivity).
  split; [exact V |].
  destruct (complete_request_valid_only_if ascii_lower String.length no_float_repr
              tesla_model_3 tesla_electric V) as [_ [_ [He _]]].
  apply He; reflexivity.
Defined.

Lemma model_suggestions_are_valid_witness :
  get_suggestions_for_model ascii_lower "bmw" "series" = []
  /\ get_suggestions_for_model ascii_lower "BMW" "series"
     = ["3 Series"; "5 Series"; "7 Series"].
Proof.
  split.
  - apply (proj2 (proj2 (model_suggestions_are_valid ascii_lower
                           "bmw" "series"))).
    reflexivity.
  - vm_compute; reflexivity.
Defined.
